(** * bubblemaps-bot: the request handler of [bot.py] and its classifier

    A shallow embedding of [src/bot.py].  Python values that come out of
    [response.json()] are kept dynamically typed ([json]); a Python
    exception is an [exn] carried by [outcome]; dictionaries are [gmap]s
    keyed by strings; the working directory is a [gset] of file names.

    Numbers are exact rationals: the theorems below only depend on how
    the top-10 sum compares with the thresholds, not on how the sum rounds. *)

From stdpp Require Import base strings gmap list pretty.
From Stdlib Require Import Ascii QArith Qabs Lqa.

#[local] Set Warnings "-register-all".
#[local] Open Scope string_scope.

(** ** Python values and exceptions *)

Inductive json :=
| JNull
| JBool (b : bool)
| JNum (q : Q)
| JStr (s : string)
| JArr (l : list json)
| JObj (m : gmap string json).

Inductive exn :=
| AttributeError
| TypeError
| ValueError
| KeyError
| IndexError
| HTTPError
| RequestException
| JSONDecodeError
| WebDriverException
| FileNotFoundError
| TelegramError.

Inductive outcome (A : Type) :=
| Ret (a : A)
| Raise (e : exn).
Arguments Ret {A} a.
Arguments Raise {A} e.

#[global] Instance outcome_ret : MRet outcome := @Ret.
#[global] Instance outcome_bind : MBind outcome := λ A B f m,
  match m with
  | Ret a => f a
  | Raise e => Raise e
  end.

(** [bool(v)] *)
Definition truthy (v : json) : bool :=
  match v with
  | JNull => false
  | JBool b => b
  | JNum q => negb (Qeq_bool q 0)
  | JStr s => negb (String.eqb s "")
  | JArr l => negb (Nat.eqb (length l) 0)
  | JObj m => negb (Nat.eqb (size m) 0)
  end.

(** [v.get(k, dflt)]: only a dict has [get]. *)
Definition py_get (v : json) (k : string) (dflt : json) : outcome json :=
  match v with
  | JObj m => Ret (default dflt (m !! k))
  | _ => Raise AttributeError
  end.

(** [v[k]] for a string key. *)
Definition py_getitem (v : json) (k : string) : outcome json :=
  match v with
  | JObj m =>
      match m !! k with
      | Some x => Ret x
      | None => Raise KeyError
      end
  | _ => Raise TypeError
  end.

(** The number a value stands for in arithmetic and in a float format
    ([bool] is a subclass of [int]). *)
Definition as_number (v : json) : option Q :=
  match v with
  | JNum q => Some q
  | JBool b => Some (if b then 1 else 0)%Q
  | _ => None
  end.

(** [acc + v] with [acc] a number. *)
Definition py_add (acc : Q) (v : json) : outcome Q :=
  match as_number v with
  | Some q => Ret (acc + q)%Q
  | None => Raise TypeError
  end.

(** [x > y] on numbers. *)
Definition py_gt (x y : Q) : bool := negb (Qle_bool x y).

(** ** Decentralization classifier (bot.py, lines 167-178) *)

Record verdict := { score : Z; description : string }.

(** [sum(node.get('percentage', 0) for node in nodes)], the running total
    starting at [acc]; the generator is consumed from the left and the
    first failing record ends the sum. *)
Fixpoint sum_percentages (acc : Q) (nodes : list json) : outcome Q :=
  match nodes with
  | [] => Ret acc
  | node :: rest =>
      p ← py_get node "percentage" (JNum 0);
      acc' ← py_add acc p;
      sum_percentages acc' rest
  end.

Definition top10_percentage (nodes : list json) : outcome Q :=
  sum_percentages 0 (take 10 nodes).

Definition bucket (top10 : Q) : verdict :=
  if py_gt top10 90 then {| score := 1; description := "Very low decentralization" |}
  else if py_gt top10 70 then {| score := 2; description := "Low decentralization" |}
  else if py_gt top10 50 then {| score := 3; description := "Medium decentralization" |}
  else if py_gt top10 30 then {| score := 4; description := "High decentralization" |}
  else {| score := 5; description := "Very high decentralization" |}.

Definition analyze_decentralization (nodes : list json) : outcome verdict :=
  if negb (truthy (JArr nodes)) || (length nodes <? 3)%nat then
    Ret {| score := 0; description := "Insufficient data for analysis" |}
  else
    top10 ← top10_percentage nodes;
    Ret (bucket top10).



(** The top holder is printed with its address. *)
Definition has_address (v : json) : bool :=
  match v with
  | JObj m => bool_decide (is_Some (m !! "address"))
  | _ => false
  end.



(** Sample holder lists. *)
Definition holder (addr : string) (pct : Q) : json :=
  JObj (<["address" := JStr addr]> (<["percentage" := JNum pct]> ∅)).

Definition nodes_sum90 : list json := [holder "0xa" 50; holder "0xb" 30; holder "0xc" 10].
Definition nodes_two : list json := [holder "0xa" 99; JStr "not a record"].

(** ** Strings *)

Definition nl : string := String (ascii_of_nat 10) EmptyString.

(** [sep.join(parts)] *)
Definition join (sep : string) (parts : list string) : string :=
  String.concat sep parts.

Definition map_ascii (f : ascii → ascii) : string → string :=
  fix go s :=
    match s with
    | EmptyString => EmptyString
    | String a s' => String (f a) (go s')
    end.

Definition lower_ascii (a : ascii) : ascii :=
  let n := nat_of_ascii a in
  if (65 <=? n)%nat && (n <=? 90)%nat then ascii_of_nat (n + 32) else a.

Definition upper_ascii (a : ascii) : ascii :=
  let n := nat_of_ascii a in
  if (97 <=? n)%nat && (n <=? 122)%nat then ascii_of_nat (n - 32) else a.

(** [s.lower()] and [s.upper()].  Strings are UTF-8 bytes and only the
    ASCII letters change case; no other character lowers to a letter of
    a supported chain code. *)
Definition lower : string → string := map_ascii lower_ascii.
Definition upper : string → string := map_ascii upper_ascii.

(** The ASCII characters on which [str.isspace()] holds. *)
Definition is_space (a : ascii) : bool :=
  let n := nat_of_ascii a in
  (9 <=? n)%nat && (n <=? 13)%nat || (28 <=? n)%nat && (n <=? 32)%nat.

(** [s.strip().split()]: the maximal runs of non-space characters.  [cur]
    is the token being read. *)
Fixpoint split_from (cur : string) (s : string) : list string :=
  match s with
  | EmptyString => if String.eqb cur "" then [] else [cur]
  | String a s' =>
      if is_space a then
        if String.eqb cur "" then split_from "" s' else cur :: split_from "" s'
      else split_from (cur ++ String a EmptyString) s'
  end.

Definition py_split (s : string) : list string := split_from "" s.

(** ** Constants (bot.py, lines 26-29) *)

Definition BUBBLEMAPS_API_URL : string := "https://api-legacy.bubblemaps.io/map-data".
Definition COINGECKO_API_URL : string := "https://api.coingecko.com/api/v3".
Definition SUPPORTED_CHAINS : list string :=
  ["eth"; "bsc"; "ftm"; "avax"; "cro"; "arbi"; "poly"; "base"; "sol"; "sonic"].

(** ** The world around a request

    What the three services, the browser and the chat answer is given by
    an [env]; what the handler did is recorded in the [world]: the files of
    the working directory and the calls made, in order. *)

Record response := { status_code : Z; json_body : option json }.

(** [response.raise_for_status()] of [requests]: 4xx and 5xx raise. *)
Definition raise_for_status (r : response) : outcome unit :=
  if (400 <=? status_code r)%Z && (status_code r <? 600)%Z
  then Raise HTTPError else Ret ().

(** [response.json()] *)
Definition response_json (r : response) : outcome json :=
  match json_body r with
  | Some v => Ret v
  | None => Raise JSONDecodeError
  end.

(** The browser either raises before anything is saved, or
    [save_screenshot] returns, having written the file or not. *)
Inductive capture :=
| DriverRaises
| Captured (written : bool).

Record env := {
  bubblemaps : string → string → outcome response;  (* token, chain *)
  coingecko : string → string → outcome response;   (* slug, contract *)
  browser : string → string → capture;              (* chain, contract *)
  telegram_ok : nat → bool                          (* n-th Bot API call *)
}.

Inductive event :=
| HttpGet (url : string) (params : list (string * string))
| BrowserGet (url : string)
| SaveScreenshot (path : string)
| ReplyText (text : string) (delivered : bool)
| ReplyPhoto (path caption : string) (delivered : bool)
| Remove (path : string).

Record world := {
  files : gset string;
  trace : list event;
  api_calls : nat
}.

Definition start (fs : gset string) : world :=
  {| files := fs; trace := []; api_calls := 0 |}.

Definition is_reply (ev : event) : bool :=
  match ev with
  | ReplyText _ _ | ReplyPhoto _ _ _ => true
  | _ => false
  end.

Definition is_fetch (ev : event) : bool :=
  match ev with
  | HttpGet _ _ | BrowserGet _ | SaveScreenshot _ => true
  | _ => false
  end.

(** What the handler sent to the chat, in order. *)
Definition replies (w : world) : list event := List.filter is_reply (trace w).

(** Nothing was said to the chat between [w] and [w']. *)
Definition same_chat (w w' : world) : Prop :=
  replies w' = replies w ∧ api_calls w' = api_calls w.

(** ** Actions: state passing with exceptions *)

Definition M (A : Type) : Type := world → outcome A * world.

#[global] Instance M_ret : MRet M := λ A a w, (Ret a, w).
#[global] Instance M_bind : MBind M := λ A B f m w,
  match m w with
  | (Ret a, w') => f a w'
  | (Raise e, w') => (Raise e, w')
  end.

Definition lift {A} (o : outcome A) : M A := λ w, (o, w).

(** [try: body except Exception as e: handler] *)
Definition try_except {A} (body : M A) (handler : exn → M A) : M A := λ w,
  match body w with
  | (Ret a, w') => (Ret a, w')
  | (Raise e, w') => handler e w'
  end.

(** [try: body finally: cleanup] *)
Definition try_finally {A} (body : M A) (cleanup : M unit) : M A := λ w,
  let '(r, w') := body w in
  match cleanup w' with
  | (Ret _, w'') => (r, w'')
  | (Raise e, w'') => (Raise e, w'')
  end.

Definition emit (ev : event) : M unit := λ w,
  (Ret (), {| files := files w; trace := trace w ++ [ev]; api_calls := api_calls w |}).

(** [requests.get(url, params=params, timeout=5)] *)
Definition requests_get (url : string) (params : list (string * string))
    (answer : outcome response) : M response :=
  emit (HttpGet url params);; lift answer.

(** [await update.message.reply_text(text, ...)] *)
Definition reply_text (e : env) (text : string) : M unit := λ w,
  let ok := telegram_ok e (api_calls w) in
  (if ok then Ret () else Raise TelegramError,
   {| files := files w; trace := trace w ++ [ReplyText text ok];
      api_calls := S (api_calls w) |}).

(** [await update.message.reply_photo(photo, caption=caption, ...)] *)
Definition reply_photo (e : env) (path caption : string) : M unit := λ w,
  let ok := telegram_ok e (api_calls w) in
  (if ok then Ret () else Raise TelegramError,
   {| files := files w; trace := trace w ++ [ReplyPhoto path caption ok];
      api_calls := S (api_calls w) |}).

(** [open(path, 'rb')] *)
Definition open_rb (path : string) : M unit := λ w,
  (if bool_decide (path ∈ files w) then Ret () else Raise FileNotFoundError, w).

(** [os.path.exists(path)] *)
Definition path_exists (path : string) : M bool := λ w,
  (Ret (bool_decide (path ∈ files w)), w).

(** [os.remove(path)] *)
Definition os_remove (path : string) : M unit := λ w,
  (Ret (), {| files := files w ∖ {[path]}; trace := trace w ++ [Remove path];
              api_calls := api_calls w |}).

(** [driver.save_screenshot(path)] that wrote the file. *)
Definition write_file (path : string) : M unit := λ w,
  (Ret (), {| files := {[path]} ∪ files w; trace := trace w ++ [SaveScreenshot path];
              api_calls := api_calls w |}).

(** ** Holder-data fetcher (bot.py, lines 72-104) *)

(** [data.update(other)]: the keys of [other] win. *)
Definition py_update (data : json) (other : list (string * json)) : outcome json :=
  match data with
  | JObj m => Ret (JObj (list_to_map other ∪ m))
  | _ => Raise AttributeError
  end.

Definition get_token_data (e : env) (contract_address chain : string) : M json :=
  try_except
    (response ← requests_get BUBBLEMAPS_API_URL
                  [("token", contract_address); ("chain", chain)]
                  (bubblemaps e contract_address chain);
     if (status_code response =? 401)%Z then mret JNull
     else if (status_code response =? 404)%Z then mret JNull
     else
       lift (raise_for_status response);;
       data ← lift (response_json response);
       symbol ← lift (py_get data "symbol" (JStr "N/A"));
       full_name ← lift (py_get data "full_name" (JStr "N/A"));
       lift (py_update data [("token_address", JStr contract_address);
                             ("symbol", symbol);
                             ("full_name", full_name)]))
    (λ _, mret JNull).

(** ** Market-data fetcher (bot.py, lines 106-147) *)

Definition chain_map : gmap string string :=
  list_to_map
    [("eth", "ethereum"); ("bsc", "binance-smart-chain"); ("ftm", "fantom");
     ("avax", "avalanche"); ("poly", "polygon-pos"); ("arbi", "arbitrum-one");
     ("base", "base"); ("cro", "cronos")].

(** [data.get('market_data', {}).get(group, {}).get('usd')] *)
Definition usd_field (data : json) (group : string) : outcome json :=
  market ← py_get data "market_data" (JObj ∅);
  amounts ← py_get market group (JObj ∅);
  py_get amounts "usd" JNull.

(** The dict literal of lines 139-144. *)
Definition market_record (data : json) : outcome json :=
  price ← usd_field data "current_price";
  market_cap ← usd_field data "market_cap";
  volume ← usd_field data "total_volume";
  change ← (market ← py_get data "market_data" (JObj ∅);
            py_get market "price_change_percentage_24h" JNull);
  Ret (JObj (list_to_map [("price", price); ("market_cap", market_cap);
                          ("volume", volume); ("price_change_24h", change)])).

Definition get_market_data (e : env) (contract_address chain : string) : M json :=
  if String.eqb chain "sol" then mret JNull
  else
    match chain_map !! chain with
    | None => mret JNull
    | Some slug =>
        try_except
          (response ← requests_get
                        (COINGECKO_API_URL ++ "/coins/" ++ slug ++ "/contract/"
                           ++ contract_address)
                        [] (coingecko e slug contract_address);
           if negb (status_code response =? 200)%Z then mret JNull
           else
             data ← lift (response_json response);
             lift (market_record data))
          (λ _, mret JNull)
    end.

(** ** Visualization fetcher (bot.py, lines 149-165)

    The result is the path of the screenshot or [None]; the path starts
    with [temp_], so a returned path is never an empty string. *)

Definition generate_screenshot (e : env) (contract_address chain : string)
    : M (option string) :=
  try_except
    (let screenshot_path := "temp_" ++ contract_address ++ ".png" in
     emit (BrowserGet ("https://app.bubblemaps.io/" ++ chain ++ "/token/"
                         ++ contract_address));;
     match browser e chain contract_address with
     | DriverRaises => lift (Raise WebDriverException)
     | Captured written =>
         (if written then write_file screenshot_path else mret ());;
         mret (Some screenshot_path)
     end)
    (λ _, mret None).

(** ** Sample formatting

    A fixed-point rendering of a rational, rounding half to even, with an
    optional thousands separator, and a rendering of the values that are
    not strings.  The composer is stated over any formatting; this one is
    used to run it. *)

Definition round_half_even (q : Q) : Z :=
  let d := Z.pos (Qden q) in
  let whole := (Qnum q / d)%Z in
  match (2 * (Qnum q mod d) ?= d)%Z with
  | Lt => whole
  | Gt => (whole + 1)%Z
  | Eq => if Z.even whole then whole else (whole + 1)%Z
  end.

(** Digits taken from the right, a comma after every third one. *)
Fixpoint commas_rev (digits : list ascii) : list ascii :=
  match digits with
  | a :: b :: c :: ((_ :: _) as rest) => a :: b :: c :: ","%char :: commas_rev rest
  | _ => digits
  end.

Definition with_commas (s : string) : string :=
  String.string_of_list_ascii (rev (commas_rev (rev (String.list_ascii_of_string s)))).

Definition zero_padded (width : nat) (s : string) : string :=
  String.concat "" (replicate (width - String.length s) "0") ++ s.

Definition format_fixed (grouping : bool) (digits : nat) (q : Q) : string :=
  let unit := (10 ^ Z.of_nat digits)%Z in
  let scaled := round_half_even (Qabs q * inject_Z unit) in
  let whole := pretty (scaled / unit)%Z in
  (if Qle_bool 0 q then "" else "-")
  ++ (if grouping then with_commas whole else whole)
  ++ "." ++ zero_padded digits (pretty (scaled mod unit)%Z).

Definition sample_format (spec : string) (q : Q) : string :=
  if String.eqb spec ",.6f" then format_fixed true 6 q
  else if String.eqb spec ",.2f" then format_fixed true 2 q
  else format_fixed false 2 q.

Definition sample_repr (v : json) : string :=
  match v with
  | JNull => "None"
  | JBool b => if b then "True" else "False"
  | JNum q => if (Qden q =? 1)%positive then pretty (Qnum q) else format_fixed false 6 q
  | JStr s => s
  | JArr _ => "[...]"
  | JObj _ => "{...}"
  end.

(** ** Sample services *)

Definition ok_json (v : json) : outcome response :=
  Ret {| status_code := 200; json_body := Some v |}.
Definition status_only (st : Z) : outcome response :=
  Ret {| status_code := st; json_body := None |}.

Definition token_snapshot : gmap string json :=
  list_to_map [("symbol", JStr "TKN"); ("full_name", JStr "Token");
               ("dt_update", JStr "2024-05-01"); ("nodes", JArr nodes_sum90)].
Definition token_body : json := JObj token_snapshot.

(** What [get_token_data] makes of [token_body] for the contract [0xabc],
    and the market record of a body without figures. *)
Definition token_record : json :=
  JObj (list_to_map [("token_address", JStr "0xabc"); ("symbol", JStr "TKN");
                     ("full_name", JStr "Token")] ∪ token_snapshot).
Definition market_all_null : json :=
  JObj (list_to_map [("price", JNull); ("market_cap", JNull);
                     ("volume", JNull); ("price_change_24h", JNull)]).

(** Every service answers and the chat accepts every message; the market
    service knows the contract but has no figures for it. *)
Definition env_all_up : env :=
  {| bubblemaps := λ _ _, ok_json token_body;
     coingecko := λ _ _, ok_json (JObj ∅);
     browser := λ _ _, Captured true;
     telegram_ok := λ _, true |}.

(** The mapping service answers [st]; the market service is down. *)
Definition env_map_status (st : Z) : env :=
  {| bubblemaps := λ _ _, status_only st;
     coingecko := λ _ _, status_only 500;
     browser := λ _ _, Captured true;
     telegram_ok := λ _, true |}.

(** The market service is down; the rest answers. *)
Definition env_no_market : env :=
  {| bubblemaps := λ _ _, ok_json token_body;
     coingecko := λ _ _, status_only 500;
     browser := λ _ _, Captured true;
     telegram_ok := λ _, true |}.

(** ** Response composer (bot.py, lines 180-255) *)

Section Composer.

(** Python's own formatting is not part of the repository: [py_repr v] is
    [str(v)] for a value that is not a string, [format_float spec q] is
    [format(q, spec)] for a number. *)
Variable py_repr : json → string.
Variable format_float : string → Q → string.

(** [f"{v}"] *)
Definition str_of (v : json) : string :=
  match v with
  | JStr s => s
  | _ => py_repr v
  end.

(** [f"{v:<spec>}"] with a float presentation type: only numbers have it. *)
Definition format_spec (spec : string) (v : json) : outcome string :=
  match v with
  | JStr _ => Raise ValueError
  | _ =>
      match as_number v with
      | Some q => Ret (format_float spec q)
      | None => Raise TypeError
      end
  end.

(** [k in v] *)
Definition py_in (k : string) (v : json) : outcome bool :=
  match v with
  | JObj m => Ret (bool_decide (is_Some (m !! k)))
  | JArr l => Ret (existsb (λ x, match x with
                                 | JStr s => String.eqb s k
                                 | _ => false
                                 end) l)
  | JStr s => Ret (bool_decide (is_Some (String.index 0 k s)))
  | _ => Raise TypeError
  end.

Definition usage_message : string :=
  "❌ Invalid format. Use:" ++ nl ++ "`<address> <chain>`" ++ nl ++ nl
  ++ "Supported chains: " ++ join ", " SUPPORTED_CHAINS.

Definition processing_message : string := "🔄 Processing request...".
Definition no_map_message : string := "❌ Map not computed or error occurred.".
Definition error_message : string :=
  "❌ Error processing request. Please try again later.".

(** Lines 210-216. *)
Definition header_block (chain : string) (token_data : json) : outcome (list string) :=
  full_name ← py_get token_data "full_name" (JStr "N/A");
  symbol ← py_get token_data "symbol" (JStr "N/A");
  address ← py_get token_data "token_address" JNull;
  updated ← py_get token_data "dt_update" (JStr "N/A");
  Ret ["📊 *" ++ str_of full_name ++ " (" ++ str_of symbol ++ ")*";
       "";
       "• Network: " ++ upper chain;
       "• Address: `" ++ str_of address ++ "`";
       "• Updated: " ++ str_of updated].

(** Lines 218-226. *)
Definition market_block (market_data : json) : outcome (list string) :=
  if truthy market_data then
    price ← py_get market_data "price" (JStr "N/A") ≫= format_spec ",.6f";
    market_cap ← py_get market_data "market_cap" (JStr "N/A") ≫= format_spec ",.2f";
    volume ← py_get market_data "volume" (JStr "N/A") ≫= format_spec ",.2f";
    change ← py_get market_data "price_change_24h" (JStr "N/A") ≫= format_spec ".2f";
    Ret ["";
         "💹 *Market Data:*";
         "• Price: $" ++ price;
         "• Market Cap: $" ++ market_cap;
         "• Volume (24h): $" ++ volume;
         "• Price Change (24h): " ++ change ++ "%"]
  else Ret [].

(** Lines 228-240.  A [nodes] value that is truthy but not a list makes
    [nodes[0]] or [holder['address']] raise. *)
Definition holder_block (token_data : json) : outcome (list string) :=
  present ← py_in "nodes" token_data;
  if negb present then Ret []
  else
    nodes ← py_getitem token_data "nodes";
    if negb (truthy nodes) then Ret []
    else
      match nodes with
      | JArr l =>
          holder ← from_option Ret (Raise IndexError) (l !! 0%nat);
          decentralization ← analyze_decentralization l;
          address ← py_getitem holder "address";
          percentage ← py_get holder "percentage" (JNum 0) ≫= format_spec ".2f";
          Ret ["";
               "🏆 *Top Holder:*";
               "• Address: `" ++ str_of address ++ "`";
               "• Percentage: " ++ percentage ++ "%";
               "";
               "🔍 *Decentralization Analysis:*";
               "• Score: " ++ pretty (score decentralization) ++ "/5";
               "• Description: " ++ description decentralization]
      | _ => Raise TypeError
      end.

Definition compose_response (chain : string) (token_data market_data : json)
    : outcome (list string) :=
  header ← header_block chain token_data;
  market ← market_block market_data;
  holders ← holder_block token_data;
  Ret (header ++ market ++ holders)%list.

(** Some figure of the market record is [None]. *)
Definition null_field (market_data : json) : bool :=
  existsb (λ k, match py_get market_data k (JStr "N/A") with
                | Ret JNull => true
                | _ => false
                end)
          ["price"; "market_cap"; "volume"; "price_change_24h"].

(** Lines 244-249: send the photo, then delete the file whether or not
    the send raised. *)
Definition send_photo (e : env) (path caption : string) : M unit :=
  try_finally
    (open_rb path;; reply_photo e path caption)
    (there ← path_exists path;
     if there : bool then os_remove path else mret ()).

(** Lines 205-251: what follows the join of the three fetches. *)
Definition respond (e : env) (chain : string) (token_data market_data : json)
    (screenshot_path : option string) : M unit :=
  if negb (truthy token_data) then reply_text e no_map_message
  else
    response ← lift (compose_response chain token_data market_data);
    match screenshot_path with
    | Some path => send_photo e path (join nl response)
    | None => reply_text e (join nl response)
    end.

(** Lines 198-251, the body of the [try]. *)
Definition process_request (e : env) (contract_address chain : string) : M unit :=
  token_data ← get_token_data e contract_address chain;
  market_data ← (if negb (String.eqb chain "sol")
                 then get_market_data e contract_address chain
                 else mret JNull);
  screenshot_path ← generate_screenshot e contract_address chain;
  respond e chain token_data market_data screenshot_path.

Definition handle_contract (e : env) (message_text : string) : M unit :=
  match py_split message_text with
  | [contract_address; chain] =>
      if bool_decide (lower chain ∈ SUPPORTED_CHAINS) then
        let chain := lower chain in
        reply_text e processing_message;;
        try_except
          (process_request e contract_address chain)
          (λ _, reply_text e error_message)
      else reply_text e usage_message
  | _ => reply_text e usage_message
  end.

(** ** What one request does to the world, fetch by fetch *)

Definition logged (evs : list event) (w : world) : world :=
  {| files := files w; trace := trace w ++ evs; api_calls := api_calls w |}.

Definition screenshot_file (contract_address : string) : string :=
  "temp_" ++ contract_address ++ ".png".

(** The request of the market fetcher, when it makes one. *)
Definition market_calls (contract_address chain : string) : list event :=
  if String.eqb chain "sol" then []
  else
    match chain_map !! chain with
    | Some slug =>
        [HttpGet (COINGECKO_API_URL ++ "/coins/" ++ slug ++ "/contract/"
                    ++ contract_address) []]
    | None => []
    end.

(** The page load of the visualization fetcher and, when the capture was
    written, the file it saved. *)
Definition browser_calls (e : env) (contract_address chain : string) : list event :=
  BrowserGet ("https://app.bubblemaps.io/" ++ chain ++ "/token/" ++ contract_address)
  :: match browser e chain contract_address with
     | Captured true => [SaveScreenshot (screenshot_file contract_address)]
     | _ => []
     end.

Definition fetch_events (e : env) (contract_address chain : string) : list event :=
  (HttpGet BUBBLEMAPS_API_URL [("token", contract_address); ("chain", chain)]
   :: market_calls contract_address chain
   ++ browser_calls e contract_address chain)%list.

(** The path [generate_screenshot] returns. *)
Definition shot_path (e : env) (contract_address chain : string) : option string :=
  match browser e chain contract_address with
  | DriverRaises => None
  | Captured _ => Some (screenshot_file contract_address)
  end.

(** The world once the three fetches are joined. *)
Definition after_fetches (e : env) (contract_address chain : string) (w : world)
    : world :=
  {| files := match browser e chain contract_address with
              | Captured true => {[screenshot_file contract_address]} ∪ files w
              | _ => files w
              end;
     trace := trace w ++ fetch_events e contract_address chain;
     api_calls := api_calls w |}.

(** The world of an accepted request once the progress notice is out. *)
Definition noticed (fs : gset string) : world :=
  {| files := fs; trace := [ReplyText processing_message true]; api_calls := 1 |}.


Definition is_dict (v : json) : bool :=
  match v with JObj _ => true | _ => false end.

(** The [market_data] dict of a market-service body ([{}] when the key is
    missing), one of its figures, and the shape the extraction relies on:
    the body, [market_data] and the three money groups are dicts wherever
    they are present. *)
Definition market_dict (data : json) : gmap string json :=
  match data with
  | JObj d => match d !! "market_data" with Some (JObj mk) => mk | _ => ∅ end
  | _ => ∅
  end.

Definition usd_or_null (mk : gmap string json) (group : string) : json :=
  match mk !! group with
  | Some (JObj amounts) => default JNull (amounts !! "usd")
  | _ => JNull
  end.

Definition market_shape_ok (data : json) : bool :=
  match data with
  | JObj d =>
      match default (JObj ∅) (d !! "market_data") with
      | JObj mk =>
          forallb (λ group, is_dict (default (JObj ∅) (mk !! group)))
                  ["current_price"; "market_cap"; "total_volume"]
      | _ => false
      end
  | _ => false
  end.

(** A body with a price and a null capitalisation group. *)
Definition body_null_group : json :=
  JObj (list_to_map
    [("market_data",
      JObj (list_to_map
        [("current_price", JObj (list_to_map [("usd", JNum (3 # 2))]));
         ("market_cap", JNull)]))]).

(** A body with a price and a 24h change only. *)
Definition body_partial : json :=
  JObj (list_to_map
    [("market_data",
      JObj (list_to_map
        [("current_price", JObj (list_to_map [("usd", JNum (3 # 2))]));
         ("price_change_percentage_24h", JNum (-5 # 4))]))]).

Definition env_market (body : json) : env :=
  {| bubblemaps := λ _ _, ok_json token_body;
     coingecko := λ _ _, ok_json body;
     browser := λ _ _, Captured true;
     telegram_ok := λ _, true |}.




(** Twelve records: ten of 5 percent each, then two that cannot be read. *)
Definition nodes_long : list json :=
  (replicate 10 (holder "0xa" 5) ++ [JNull; JStr "garbage"])%list.

(** Three records, the second with a null percentage. *)
Definition nodes_null_pct : list json :=
  [holder "0xa" 50; JObj (<["address" := JStr "0xb"]> (<["percentage" := JNull]> ∅));
   holder "0xc" 10].

(** ** What an action leaves alone *)

(** Every run of [m] takes a world to one related to it by [R]. *)
Definition keeps {A} (R : world → world → Prop) (m : M A) : Prop :=
  ∀ w, R w (m w).2.

(** No request and no page load happened between [w] and [w']. *)
Definition no_fetch (w w' : world) : Prop :=
  List.filter is_fetch (trace w') = List.filter is_fetch (trace w).

(** Between [w] and [w'] no file other than [path] appeared or vanished. *)
Definition frame (path : string) (w w' : world) : Prop :=
  ∀ p, p ≠ path → p ∈ files w' ↔ p ∈ files w.

(** ** The shared browser session (bot.py, lines 44-53 and 257-263)

    [DRIVER] is a module global: [init_driver] starts Chrome when it is
    [None] and returns the cached session otherwise, [on_shutdown] quits
    it and then shuts the worker pool down.  A session is named by the
    number of the attempt that started it.  [chrome] says which calls into
    the browser driver succeed; [sessions] lists the sessions that were
    started and not quit, [timed] those whose page-load timeout was set. *)

Record chrome := {
  launch_ok : nat → bool;   (* n-th attempt to install the driver and start Chrome *)
  timeout_ok : nat → bool;  (* [set_page_load_timeout] on a session *)
  quit_ok : nat → bool      (* [quit] of a session *)
}.

Record process := {
  DRIVER : option nat;
  attempts : nat;
  sessions : list nat;
  timed : list nat;
  executor_up : bool
}.

Definition boot : process :=
  {| DRIVER := None; attempts := 0; sessions := []; timed := []; executor_up := true |}.

Definition init_driver (c : chrome) (s : process) : outcome nat * process :=
  match DRIVER s with
  | Some d => (Ret d, s)
  | None =>
      let d := attempts s in
      if launch_ok c d then
        let started := {| DRIVER := Some d; attempts := S d;
                          sessions := d :: sessions s; timed := timed s;
                          executor_up := executor_up s |} in
        if timeout_ok c d then
          (Ret d, {| DRIVER := Some d; attempts := S d;
                     sessions := d :: sessions s; timed := d :: timed s;
                     executor_up := executor_up s |})
        else (Raise WebDriverException, started)
      else
        (Raise WebDriverException,
         {| DRIVER := None; attempts := S d; sessions := sessions s;
            timed := timed s; executor_up := executor_up s |})
  end.

Definition on_shutdown (c : chrome) (s : process) : outcome unit * process :=
  match DRIVER s with
  | Some d =>
      if quit_ok c d then
        (Ret (), {| DRIVER := None; attempts := attempts s;
                    sessions := List.filter (λ x, negb (Nat.eqb x d)) (sessions s);
                    timed := timed s; executor_up := false |})
      else (Raise WebDriverException, s)
  | None =>
      (Ret (), {| DRIVER := None; attempts := attempts s; sessions := sessions s;
                  timed := timed s; executor_up := false |})
  end.

(** Calls that do not overlap, one after the other. *)
Inductive call := InitDriver | Shutdown.

Definition run_call (c : chrome) (s : process) (k : call) : process :=
  match k with
  | InitDriver => (init_driver c s).2
  | Shutdown => (on_shutdown c s).2
  end.

Definition run_calls (c : chrome) (calls : list call) : process :=
  fold_left (run_call c) calls boot.

(** The sessions alive are the cached one, and session names are fresh. *)
Definition one_session (s : process) : Prop :=
  sessions s = option_list (DRIVER s) ∧
  (∀ d, DRIVER s = Some d → d < attempts s)%nat.

(** Chrome starts at the second attempt, the timeout cannot be set on that
    session, and quitting works. *)
Definition chrome_flaky : chrome :=
  {| launch_ok := λ n, negb (n =? 0)%nat;
     timeout_ok := λ _, false;
     quit_ok := λ _, true |}.

(** ** More sample services *)

(** The mapping service answers, the market service is down, the browser
    does [cap] and the chat accepts the calls that [chat] says. *)
Definition env_browser (cap : capture) (chat : nat → bool) : env :=
  {| bubblemaps := λ _ _, ok_json token_body;
     coingecko := λ _ _, status_only 500;
     browser := λ _ _, cap;
     telegram_ok := chat |}.

(** The message composed for [token_record] on [sol]. *)
Definition sol_lines : list string :=
  ["📊 *Token (TKN)*";
   "";
   "• Network: SOL";
   "• Address: `0xabc`";
   "• Updated: 2024-05-01";
   "";
   "🏆 *Top Holder:*";
   "• Address: `0xa`";
   "• Percentage: 50.00%";
   "";
   "🔍 *Decentralization Analysis:*";
   "• Score: 2/5";
   "• Description: Low decentralization"].

(** A snapshot whose top holder has a percentage and no address. *)
Definition snapshot_no_address : gmap string json :=
  list_to_map [("symbol", JStr "TKN");
               ("nodes", JArr [JObj (<["percentage" := JNum 50]> ∅); holder "0xb" 30])].

(** * Theorems *)

(** ** Classifier *)
















(** C6: fewer than three records, the empty list included, give score 0
    with the fixed description, whatever the records are. *)
Theorem C6_short_list_scores_zero (nodes : list json) :
  (length nodes < 3)%nat →
  analyze_decentralization nodes =
    Ret {| score := 0; description := "Insufficient data for analysis" |}.
Proof.
  intros Hlen. unfold analyze_decentralization.
  destruct nodes as [|a [|b [|c nodes]]]; simpl in *; try reflexivity. lia.
Qed.

Lemma C6_short_list_witness :
  analyze_decentralization nodes_two =
    Ret {| score := 0; description := "Insufficient data for analysis" |}.
Proof.
  apply (C6_short_list_scores_zero nodes_two). simpl. lia.
Defined.



(** ** Running actions *)

Lemma bind_ret_run {A B} (m : M A) (f : A → M B) (w w' : world) (a : A) :
  m w = (Ret a, w') → (m ≫= f) w = f a w'.
Proof. intros H. unfold mbind, M_bind. by rewrite H. Qed.

Lemma bind_raise_run {A B} (m : M A) (f : A → M B) (w w' : world) (x : exn) :
  m w = (Raise x, w') → (m ≫= f) w = (Raise x, w').
Proof. intros H. unfold mbind, M_bind. by rewrite H. Qed.

Lemma try_except_ret_run {A} (m : M A) (h : exn → M A) (w w' : world) (a : A) :
  m w = (Ret a, w') → try_except m h w = (Ret a, w').
Proof. intros H. unfold try_except. by rewrite H. Qed.

Lemma try_except_raise_run {A} (m : M A) (h : exn → M A) (w w' : world) (x : exn) :
  m w = (Raise x, w') → try_except m h w = h x w'.
Proof. intros H. unfold try_except. by rewrite H. Qed.

Lemma replies_snoc (fs : gset string) (tr : list event) (n : nat) (ev : event) :
  replies {| files := fs; trace := tr ++ [ev]; api_calls := n |} =
  (List.filter is_reply tr ++ if is_reply ev then [ev] else [])%list.
Proof.
  unfold replies. simpl. rewrite List.filter_app. simpl. by destruct (is_reply ev).
Qed.

(** ** Holder-data fetcher *)

(** The fetcher returns, whatever the service does: its only trace is the
    request it made. *)
Lemma get_token_data_run (e : env) (a ch : string) (w : world) :
  ∃ v, get_token_data e a ch w =
         (Ret v, {| files := files w;
                    trace := trace w ++ [HttpGet BUBBLEMAPS_API_URL
                                           [("token", a); ("chain", ch)]];
                    api_calls := api_calls w |}).
Proof.
  unfold get_token_data, try_except, requests_get, emit, lift, mbind, M_bind, mret, M_ret.
  destruct (bubblemaps e a ch) as [[st body]|x]; simpl; [| eauto].
  destruct (st =? 401)%Z; [eauto |]. destruct (st =? 404)%Z; [eauto |].
  destruct (raise_for_status _); [| eauto].
  destruct (response_json _) as [data|]; [| eauto].
  destruct (py_get data "symbol" _); [| eauto].
  destruct (py_get data "full_name" _); [| eauto].
  destruct (py_update data _); eauto.
Qed.

(** C2, as the code has it: 401 and 404 yield absence, and so does every
    other 4xx or 5xx status, which [raise_for_status] raises and the
    fetcher's own handler turns into [None]; the fetcher never passes a
    failure on to its caller. *)
Theorem C2_error_status_yields_absence
    (e : env) (a ch : string) (w : world) (st : Z) (body : option json) :
  bubblemaps e a ch = Ret {| status_code := st; json_body := body |} →
  (400 ≤ st < 600)%Z →
  (get_token_data e a ch w).1 = Ret JNull ∧
  (∀ e' a' ch' w' x, (get_token_data e' a' ch' w').1 ≠ Raise x).
Proof.
  intros Hresp Hst. split.
  - unfold get_token_data, try_except, requests_get, emit, lift, mbind, M_bind, mret, M_ret.
    rewrite Hresp. simpl.
    destruct (st =? 401)%Z; [done |]. destruct (st =? 404)%Z; [done |].
    unfold raise_for_status. simpl.
    replace ((400 <=? st)%Z && (st <? 600)%Z) with true; [done |].
    symmetry. apply andb_true_iff. split; [apply Z.leb_le | apply Z.ltb_lt]; lia.
  - intros e' a' ch' w' x. destruct (get_token_data_run e' a' ch' w') as [v ->]. done.
Qed.

Lemma C2_error_status_witness :
  (get_token_data (env_map_status 404) "0xabc" "eth" (start ∅)).1 = Ret JNull ∧
  (∀ e' a' ch' w' x, (get_token_data e' a' ch' w').1 ≠ Raise x).
Proof.
  apply (C2_error_status_yields_absence (env_map_status 404) "0xabc" "eth"
           (start ∅) 404 None); [reflexivity | lia].
Defined.

(** Against C2 as worded: a 500 answer is not passed on as a failure, the
    fetcher returns [None] to its caller. *)
Lemma C2_status_500_is_not_propagated :
  bubblemaps (env_map_status 500) "0xabc" "eth" = status_only 500 ∧
  (get_token_data (env_map_status 500) "0xabc" "eth" (start ∅)).1 = Ret JNull.
Proof. split; reflexivity. Qed.

(** ** Market-data and visualization fetchers *)

Lemma same_chat_log (w : world) (ev : event) :
  is_reply ev = false →
  same_chat w {| files := files w; trace := trace w ++ [ev]; api_calls := api_calls w |}.
Proof.
  intros Hev. split; [| done]. rewrite replies_snoc, Hev. apply app_nil_r.
Qed.

Lemma get_market_data_run (e : env) (a ch : string) (w : world) :
  ∃ v w', get_market_data e a ch w = (Ret v, w') ∧
          files w' = files w ∧ same_chat w w'.
Proof.
  unfold get_market_data.
  destruct (String.eqb ch "sol"); [by exists JNull, w |].
  destruct (chain_map !! ch) as [slug|]; [| by exists JNull, w].
  unfold try_except, requests_get, emit, lift, mbind, M_bind, mret, M_ret.
  assert (∀ v : json, ∃ v' w',
    (Ret v, {| files := files w;
               trace := trace w ++ [HttpGet (COINGECKO_API_URL ++ "/coins/" ++ slug
                                               ++ "/contract/" ++ a) []];
               api_calls := api_calls w |}) = (Ret v', w')
    ∧ files w' = files w ∧ same_chat w w') as Hlogged.
  { intros v. eexists _, _. split; [reflexivity |]. split; [done |].
    by apply same_chat_log. }
  destruct (coingecko e slug a) as [[st body]|x]; simpl; [| apply Hlogged].
  destruct (negb (st =? 200)%Z); [apply Hlogged |].
  destruct (response_json _) as [data|]; [| apply Hlogged].
  destruct (market_record data); apply Hlogged.
Qed.

Lemma generate_screenshot_run (e : env) (a ch : string) (w : world) :
  ∃ r w', generate_screenshot e a ch w = (Ret r, w') ∧ same_chat w w' ∧
          files w' = match browser e ch a with
                     | Captured true => {["temp_" ++ a ++ ".png"]} ∪ files w
                     | _ => files w
                     end.
Proof.
  unfold generate_screenshot, try_except, write_file, emit, lift, mbind, M_bind,
    mret, M_ret.
  destruct (browser e ch a) as [|[]]; simpl; eexists _, _;
    (split; [reflexivity |]); (split; [| reflexivity]).
  - by apply same_chat_log.
  - split; [| done]. unfold replies. simpl.
    rewrite <- app_assoc, List.filter_app. simpl. apply app_nil_r.
  - by apply same_chat_log.
Qed.

(** ** The handler *)

Lemma reply_text_run (e : env) (text : string) (w : world) :
  telegram_ok e (api_calls w) = true →
  reply_text e text w =
    (Ret (), {| files := files w; trace := trace w ++ [ReplyText text true];
                api_calls := S (api_calls w) |}).
Proof. intros H. unfold reply_text. by rewrite H. Qed.



(** The three fetches of [asyncio.gather]: each returns, none of them
    talks to the chat, and the only file they can add is the screenshot. *)
Lemma gather_run (e : env) (a ch : string) (w : world) :
  ∃ token_data market_data screenshot_path w1 w2 w3,
    get_token_data e a ch w = (Ret token_data, w1) ∧
    (if negb (String.eqb ch "sol") then get_market_data e a ch else mret JNull) w1
      = (Ret market_data, w2) ∧
    generate_screenshot e a ch w2 = (Ret screenshot_path, w3) ∧
    same_chat w w3 ∧
    files w3 = match browser e ch a with
               | Captured true => {["temp_" ++ a ++ ".png"]} ∪ files w
               | _ => files w
               end.
Proof.
  destruct (get_token_data_run e a ch w) as [td Htd].
  set (w1 := {| files := files w; trace := _; api_calls := api_calls w |}) in Htd.
  assert (same_chat w w1) as [Hr1 Hc1] by (by apply same_chat_log).
  assert (∃ md w2,
    (if negb (String.eqb ch "sol") then get_market_data e a ch else mret JNull) w1
      = (Ret md, w2) ∧ files w2 = files w1 ∧ same_chat w1 w2)
    as (md & w2 & Hmd & Hf2 & Hr2 & Hc2).
  { destruct (negb (String.eqb ch "sol")).
    - destruct (get_market_data_run e a ch w1) as (md & w2 & ? & ? & ?). eauto.
    - by exists JNull, w1. }
  destruct (generate_screenshot_run e a ch w2) as (sp & w3 & Hsp & [Hr3 Hc3] & Hf3).
  exists td, md, sp, w1, w2, w3. rewrite Hf3, Hf2.
  repeat split; congruence.
Qed.

Lemma process_request_run (e : env) (a ch : string) (w : world) :
  ∃ token_data market_data screenshot_path w1 w3,
    (get_token_data e a ch w).1 = Ret token_data ∧
    ((if negb (String.eqb ch "sol") then get_market_data e a ch else mret JNull) w1).1
      = Ret market_data ∧
    same_chat w w3 ∧
    files w3 = match browser e ch a with
               | Captured true => {["temp_" ++ a ++ ".png"]} ∪ files w
               | _ => files w
               end ∧
    process_request e a ch w = respond e ch token_data market_data screenshot_path w3.
Proof.
  destruct (gather_run e a ch w)
    as (td & md & sp & w1 & w2 & w3 & Htd & Hmd & Hsp & Hchat & Hfiles).
  exists td, md, sp, w1, w3. unfold process_request.
  rewrite (bind_ret_run _ _ _ _ _ Htd), (bind_ret_run _ _ _ _ _ Hmd),
    (bind_ret_run _ _ _ _ _ Hsp), Htd, Hmd. done.
Qed.

Lemma process_request_no_map (e : env) (a ch : string) (w : world) :
  (∀ w0, (get_token_data e a ch w0).1 = Ret JNull) →
  telegram_ok e (api_calls w) = true →
  ∃ w', process_request e a ch w = (Ret (), w') ∧
        replies w' = (replies w ++ [ReplyText no_map_message true])%list.
Proof.
  intros Habs Hok.
  destruct (process_request_run e a ch w)
    as (td & md & sp & w1 & w3 & Htd & _ & [Hr Hc] & _ & ->).
  rewrite Habs in Htd. injection Htd as <-.
  unfold respond. simpl. rewrite reply_text_run by (by rewrite Hc).
  eexists. split; [reflexivity |]. rewrite replies_snoc. simpl. by rewrite <- Hr.
Qed.

(** C3: when the holder-data fetch resolves to absence, all that the
    handler does after the join is to send the one generic failure message,
    whatever the market service and the browser returned; over the whole
    request the chat gets the progress notice that precedes the fetches and
    then that message, nothing else: no composed text and no photo. *)
Theorem C3_holder_absence_single_failure_message
    (e : env) (message_text a c : string) (fs : gset string) :
  py_split message_text = [a; c] →
  lower c ∈ SUPPORTED_CHAINS →
  (∀ w, (get_token_data e a (lower c) w).1 = Ret JNull) →
  (∀ n, telegram_ok e n = true) →
  (∀ market_data screenshot_path,
     respond e (lower c) JNull market_data screenshot_path
     = reply_text e no_map_message) ∧
  let w := (handle_contract e message_text (start fs)).2 in
  replies w = [ReplyText processing_message true; ReplyText no_map_message true].
Proof.
  intros Hsplit Hchain Habs Hok. split; [reflexivity |].
  unfold handle_contract.
  rewrite Hsplit, bool_decide_eq_true_2 by done.
  rewrite (bind_ret_run _ _ _ _ _ (reply_text_run e _ _ (Hok _))).
  set (w1 := {| files := _; trace := _; api_calls := _ |}).
  destruct (process_request_no_map e a (lower c) w1 Habs (Hok _)) as (w' & Hrun & Hrep).
  rewrite (try_except_ret_run _ _ _ _ _ Hrun). simpl. by rewrite Hrep.
Qed.

(** ** Cleanup of the screenshot *)

(** Once the send step is reached the file is gone afterwards, whether the
    photo was delivered, the send raised, or the file could not be opened. *)
Lemma send_photo_removes_file (e : env) (path caption : string) (w : world) :
  path ∉ files (send_photo e path caption w).2.
Proof.
  unfold send_photo, try_finally, open_rb, reply_photo, path_exists, os_remove,
    mbind, M_bind, mret, M_ret.
  destruct (bool_decide (path ∈ files w)) eqn:Hin; simpl.
  - destruct (telegram_ok e (api_calls w)); simpl; rewrite Hin; simpl;
      apply not_elem_of_difference; right; by apply elem_of_singleton.
  - rewrite Hin. simpl. by apply bool_decide_eq_false_1 in Hin.
Qed.

(** Off the send step nothing deletes it: when the holder data is absent
    and the browser wrote the screenshot, the file outlives the request,
    whether or not the failure message could be delivered. *)
Lemma screenshot_outlives_holder_absence
    (e : env) (message_text a c : string) (fs : gset string) :
  py_split message_text = [a; c] →
  lower c ∈ SUPPORTED_CHAINS →
  (∀ w, (get_token_data e a (lower c) w).1 = Ret JNull) →
  browser e (lower c) a = Captured true →
  telegram_ok e 0 = true →
  "temp_" ++ a ++ ".png" ∈ files (handle_contract e message_text (start fs)).2.
Proof.
  intros Hsplit Hchain Habs Hshot Hnotice. unfold handle_contract.
  rewrite Hsplit, bool_decide_eq_true_2 by done.
  rewrite (bind_ret_run _ _ _ _ _ (reply_text_run e _ (start fs) Hnotice)).
  set (w1 := {| files := _; trace := _; api_calls := _ |}).
  destruct (process_request_run e a (lower c) w1)
    as (td & md & sp & w2 & w3 & Htd & _ & _ & Hfiles & Hrun).
  rewrite Habs in Htd. injection Htd as <-. rewrite Hshot in Hfiles.
  unfold try_except. rewrite Hrun. unfold respond, reply_text. simpl.
  destruct (telegram_ok e (api_calls w3)); simpl.
  - rewrite Hfiles. set_unfold. by left.
  - destruct (telegram_ok e (S (api_calls w3))); simpl;
      rewrite Hfiles; set_unfold; by left.
Qed.

(** C1 does not hold of the code: the file is deleted only on the send
    step.  When the mapping service answers 404 the handler returns at
    line 207, and when the composer raises (here on a market record whose
    figures are all null) it leaves through the handler of line 253; in
    both runs the screenshot was saved and is still there at the end. *)
Theorem C1_screenshot_left_behind_off_the_send_step :
  let w := (handle_contract (env_map_status 404) "0xabc eth" (start ∅)).2 in
  let w' := (handle_contract env_all_up "0xabc eth" (start ∅)).2 in
  (trace w =
     [ReplyText processing_message true;
      HttpGet BUBBLEMAPS_API_URL [("token", "0xabc"); ("chain", "eth")];
      HttpGet "https://api.coingecko.com/api/v3/coins/ethereum/contract/0xabc" [];
      BrowserGet "https://app.bubblemaps.io/eth/token/0xabc";
      SaveScreenshot "temp_0xabc.png";
      ReplyText no_map_message true]
   ∧ "temp_0xabc.png" ∈ files w) ∧
  (trace w' =
     [ReplyText processing_message true;
      HttpGet BUBBLEMAPS_API_URL [("token", "0xabc"); ("chain", "eth")];
      HttpGet "https://api.coingecko.com/api/v3/coins/ethereum/contract/0xabc" [];
      BrowserGet "https://app.bubblemaps.io/eth/token/0xabc";
      SaveScreenshot "temp_0xabc.png";
      ReplyText error_message true]
   ∧ "temp_0xabc.png" ∈ files w').
Proof.
  repeat split; try (vm_compute; reflexivity);
    apply bool_decide_eq_true_1; vm_compute; reflexivity.
Qed.

(** ** The composed message *)




(** ** Market records with missing figures *)

Lemma market_record_truthy (data r : json) :
  market_record data = Ret r → truthy r = true.
Proof.
  unfold market_record.
  destruct (usd_field data "current_price") as [price|]; simpl; [| discriminate].
  destruct (usd_field data "market_cap") as [market_cap|]; simpl; [| discriminate].
  destruct (usd_field data "total_volume") as [volume|]; simpl; [| discriminate].
  destruct (py_get data "market_data" (JObj ∅)) as [market|]; simpl; [| discriminate].
  destruct (py_get market "price_change_percentage_24h" JNull) as [change|]; simpl;
    [| discriminate].
  intros [= <-]. simpl.
  apply negb_true_iff, Nat.eqb_neq, map_size_non_empty_iff, insert_non_empty.
Qed.

Lemma get_market_data_present (e : env) (a ch : string) (w : world) (v : json) :
  (get_market_data e a ch w).1 = Ret v → v = JNull ∨ truthy v = true.
Proof.
  unfold get_market_data.
  destruct (String.eqb ch "sol"); [intros [= <-]; by left |].
  destruct (chain_map !! ch) as [slug|]; [| intros [= <-]; by left].
  unfold try_except, requests_get, emit, lift, mbind, M_bind, mret, M_ret.
  destruct (coingecko e slug a) as [[st body]|x]; simpl; [| intros [= <-]; by left].
  destruct (negb (st =? 200)%Z); [intros [= <-]; by left |].
  destruct (response_json _) as [data|]; [| intros [= <-]; by left].
  destruct (market_record data) as [r|] eqn:Hr; [| intros [= <-]; by left].
  intros [= <-]. right. by apply (market_record_truthy data).
Qed.

Lemma format_spec_not_null (spec : string) (v : json) (s : string) :
  format_spec spec v = Ret s → v ≠ JNull.
Proof. by intros H ->. Qed.

Lemma market_block_null_raises (market_data : json) :
  truthy market_data = true →
  null_field market_data = true →
  ∃ x, market_block market_data = Raise x.
Proof.
  intros Htruthy Hnull. unfold market_block. rewrite Htruthy.
  destruct market_data as [| | | | |m]; try discriminate.
  unfold null_field in Hnull. simpl in *.
  destruct (format_spec ",.6f" (default (JStr "N/A") (m !! "price")))
    as [s1|x1] eqn:H1; [| eauto].
  destruct (format_spec ",.2f" (default (JStr "N/A") (m !! "market_cap")))
    as [s2|x2] eqn:H2; [| eauto].
  destruct (format_spec ",.2f" (default (JStr "N/A") (m !! "volume")))
    as [s3|x3] eqn:H3; [| eauto].
  destruct (format_spec ".2f" (default (JStr "N/A") (m !! "price_change_24h")))
    as [s4|x4] eqn:H4; [| eauto].
  apply format_spec_not_null in H1, H2, H3, H4. simpl. exfalso.
  repeat match goal with
         | H : default _ ?o ≠ JNull |- _ =>
             destruct o as [[]|]; try (by destruct H); clear H
         end;
    discriminate.
Qed.

Lemma respond_compose_raises
    (e : env) (ch : string) (td md : json) (sp : option string) (w : world) (x : exn) :
  truthy td = true →
  compose_response ch td md = Raise x →
  respond e ch td md sp w = (Raise x, w).
Proof.
  intros Htd Hx. unfold respond, lift, mbind, M_bind. by rewrite Htd, Hx.
Qed.

(** C9: a market record that the fetcher returned is truthy whatever its
    four figures are, so the market block is formatted; when one of the
    figures is null the formatting raises, the composer raises with it, and
    the chat gets, after the progress notice, one generic failure message
    and no composed message (the no-map message when the holder data is
    absent too, the error message otherwise). *)
Theorem C9_null_market_figure_fails_the_request
    (e : env) (message_text a c : string) (fs : gset string) (td md : json) :
  py_split message_text = [a; c] →
  lower c ∈ SUPPORTED_CHAINS →
  (∀ w, (get_token_data e a (lower c) w).1 = Ret td) →
  (∀ w, (get_market_data e a (lower c) w).1 = Ret md) →
  null_field md = true →
  (∀ n, telegram_ok e n = true) →
  (∀ data r, market_record data = Ret r → truthy r = true) ∧
  truthy md = true ∧
  (∃ x, market_block md = Raise x) ∧
  (∃ x, compose_response (lower c) td md = Raise x) ∧
  let w := (handle_contract e message_text (start fs)).2 in
  replies w =
    [ReplyText processing_message true;
     ReplyText (if truthy td then error_message else no_map_message) true].
Proof.
  intros Hsplit Hchain Htd Hmd Hnull Hok.
  assert (truthy md = true) as Hpresent.
  { destruct (get_market_data_present e a (lower c) (start ∅) md (Hmd _)) as [->|]; done. }
  destruct (market_block_null_raises md Hpresent Hnull) as [xm Hxm].
  assert (∃ x, compose_response (lower c) td md = Raise x) as [x Hx].
  { unfold compose_response. destruct (header_block _ _); simpl; [| eauto].
    rewrite Hxm. simpl. eauto. }
  split; [exact market_record_truthy |]. split; [done |].
  split; [eauto |]. split; [eauto |].
  unfold handle_contract. rewrite Hsplit, bool_decide_eq_true_2 by done.
  rewrite (bind_ret_run _ _ _ _ _ (reply_text_run e _ _ (Hok _))).
  set (w1 := {| files := _; trace := _; api_calls := _ |}).
  destruct (process_request_run e a (lower c) w1)
    as (td' & md' & sp & w2 & w3 & Htd' & Hmd' & [Hr Hc] & _ & Hrun).
  rewrite Htd in Htd'. injection Htd' as <-.
  assert (md' = md) as ->.
  { destruct (negb (String.eqb (lower c) "sol")) eqn:Hsol.
    - rewrite Hmd in Hmd'. congruence.
    - apply negb_false_iff, String.eqb_eq in Hsol.
      specialize (Hmd (start ∅)). rewrite Hsol in Hmd. simpl in Hmd.
      injection Hmd as <-. discriminate. }
  destruct (truthy td) eqn:Htruthy.
  - rewrite (respond_compose_raises _ _ _ _ _ _ _ Htruthy Hx) in Hrun.
    rewrite (try_except_raise_run _ _ _ _ _ Hrun).
    rewrite reply_text_run by apply Hok. simpl.
    rewrite replies_snoc. simpl. fold (replies w3). by rewrite Hr.
  - unfold respond in Hrun. rewrite Htruthy in Hrun. simpl in Hrun.
    rewrite reply_text_run in Hrun by apply Hok.
    rewrite (try_except_ret_run _ _ _ _ _ Hrun). simpl.
    rewrite replies_snoc. simpl. fold (replies w3). by rewrite Hr.
Qed.

(** * Further properties of the fetchers *)

Lemma logged_nil (w : world) : logged [] w = w.
Proof. destruct w. unfold logged. simpl. by rewrite app_nil_r. Qed.

Lemma logged_logged (evs evs' : list event) (w : world) :
  logged evs' (logged evs w) = logged (evs ++ evs') w.
Proof. unfold logged. simpl. by rewrite app_assoc. Qed.

(** The result of the holder fetcher does not depend on the world, and its
    whole footprint is the one request. *)
Lemma get_token_data_exact (e : env) (a ch : string) :
  ∃ v, ∀ w, get_token_data e a ch w =
              (Ret v, logged [HttpGet BUBBLEMAPS_API_URL
                                [("token", a); ("chain", ch)]] w).
Proof.
  unfold get_token_data, try_except, requests_get, emit, lift, mbind, M_bind,
    mret, M_ret, logged.
  destruct (bubblemaps e a ch) as [[st body]|x]; simpl; [| by eexists].
  destruct (st =? 401)%Z; [by eexists |]. destruct (st =? 404)%Z; [by eexists |].
  destruct (raise_for_status _); [| by eexists].
  destruct (response_json _) as [data|]; [| by eexists].
  destruct (py_get data "symbol" _); [| by eexists].
  destruct (py_get data "full_name" _); [| by eexists].
  destruct (py_update data _); by eexists.
Qed.

Lemma get_market_data_exact (e : env) (a ch : string) :
  ∃ v, ∀ w, get_market_data e a ch w = (Ret v, logged (market_calls a ch) w).
Proof.
  unfold get_market_data, market_calls.
  destruct (String.eqb ch "sol").
  { exists JNull. intros w. by rewrite logged_nil. }
  destruct (chain_map !! ch) as [slug|].
  2: { exists JNull. intros w. by rewrite logged_nil. }
  unfold try_except, requests_get, emit, lift, mbind, M_bind, mret, M_ret, logged.
  destruct (coingecko e slug a) as [[st body]|x]; simpl; [| by eexists].
  destruct (negb (st =? 200)%Z); [by eexists |].
  destruct (response_json _) as [data|]; [| by eexists].
  destruct (market_record data); by eexists.
Qed.

Lemma generate_screenshot_exact (e : env) (a ch : string) (w : world) :
  generate_screenshot e a ch w =
    (Ret (shot_path e a ch),
     {| files := match browser e ch a with
                 | Captured true => {[screenshot_file a]} ∪ files w
                 | _ => files w
                 end;
        trace := trace w ++ browser_calls e a ch;
        api_calls := api_calls w |}).
Proof.
  unfold generate_screenshot, try_except, write_file, emit, lift, mbind, M_bind,
    mret, M_ret, shot_path, browser_calls, screenshot_file.
  destruct (browser e ch a) as [|[]]; simpl; try reflexivity.
  by rewrite <- app_assoc.
Qed.

(** The body of the [try] is the three fetches, whose results and traces
    are fixed by the environment, followed by [respond]. *)
Lemma process_request_exact (e : env) (a ch : string) :
  ∃ td md,
    (∀ w, (get_token_data e a ch w).1 = Ret td) ∧
    (∀ w, (get_market_data e a ch w).1 = Ret md) ∧
    ∀ w, process_request e a ch w =
           respond e ch td md (shot_path e a ch) (after_fetches e a ch w).
Proof.
  destruct (get_token_data_exact e a ch) as [td Htd].
  destruct (get_market_data_exact e a ch) as [md Hmd].
  exists td, md. split; [intros w; by rewrite Htd |].
  split; [intros w; by rewrite Hmd |].
  intros w. unfold process_request.
  rewrite (bind_ret_run _ _ _ _ _ (Htd w)).
  assert ((if negb (String.eqb ch "sol") then get_market_data e a ch else mret JNull)
            (logged [HttpGet BUBBLEMAPS_API_URL [("token", a); ("chain", ch)]] w)
          = (Ret md, logged (market_calls a ch)
                       (logged [HttpGet BUBBLEMAPS_API_URL
                                  [("token", a); ("chain", ch)]] w))) as Hmarket.
  { destruct (String.eqb ch "sol") eqn:Hsol; simpl; [| apply Hmd].
    specialize (Hmd w). unfold get_market_data, market_calls in *.
    rewrite Hsol in *. injection Hmd as <- _. by rewrite logged_nil. }
  rewrite (bind_ret_run _ _ _ _ _ Hmarket).
  rewrite (bind_ret_run _ _ _ _ _ (generate_screenshot_exact e a ch _)).
  f_equal. unfold after_fetches, fetch_events, logged. simpl.
  f_equal. by rewrite <- !app_assoc.
Qed.

(** An accepted request whose progress notice went out. *)
Lemma handle_contract_accepted
    (e : env) (message_text a c : string) (fs : gset string) :
  py_split message_text = [a; c] →
  lower c ∈ SUPPORTED_CHAINS →
  telegram_ok e 0 = true →
  ∃ td md,
    (∀ w, (get_token_data e a (lower c) w).1 = Ret td) ∧
    (∀ w, (get_market_data e a (lower c) w).1 = Ret md) ∧
    handle_contract e message_text (start fs) =
      try_except
        (respond e (lower c) td md (shot_path e a (lower c)))
        (λ _, reply_text e error_message)
        (after_fetches e a (lower c) (noticed fs)).
Proof.
  intros Hsplit Hchain Hnotice.
  destruct (process_request_exact e a (lower c)) as (td & md & Htd & Hmd & Hrun).
  exists td, md. split; [done |]. split; [done |].
  unfold handle_contract. rewrite Hsplit, bool_decide_eq_true_2 by done.
  rewrite (bind_ret_run _ _ _ _ _ (reply_text_run e _ (start fs) Hnotice)).
  unfold try_except. by rewrite Hrun.
Qed.

(** ** Holder-data fetcher: what a successful fetch returns *)

Lemma not_error_status (st : Z) :
  ¬ (400 ≤ st < 600)%Z →
  (st =? 401)%Z = false ∧ (st =? 404)%Z = false ∧
  raise_for_status {| status_code := st; json_body := None |} = Ret ().
Proof.
  intros Hst. repeat split; try (apply Z.eqb_neq; lia).
  unfold raise_for_status. simpl.
  destruct (400 <=? st)%Z eqn:H1; [| done].
  destruct (st <? 600)%Z eqn:H2; [| done].
  apply Z.leb_le in H1. apply Z.ltb_lt in H2. lia.
Qed.

Lemma get_token_data_object
    (e : env) (a ch : string) (w : world) (st : Z) (m : gmap string json) :
  bubblemaps e a ch = Ret {| status_code := st; json_body := Some (JObj m) |} →
  ¬ (400 ≤ st < 600)%Z →
  (get_token_data e a ch w).1 =
    Ret (JObj (list_to_map [("token_address", JStr a);
                            ("symbol", default (JStr "N/A") (m !! "symbol"));
                            ("full_name", default (JStr "N/A") (m !! "full_name"))]
               ∪ m)).
Proof.
  intros Hresp Hst. destruct (not_error_status st Hst) as (H401 & H404 & Hraise).
  unfold get_token_data, try_except, requests_get, emit, lift, mbind, M_bind,
    mret, M_ret.
  rewrite Hresp. simpl. rewrite H401, H404.
  unfold raise_for_status in *. simpl in *.
  destruct ((400 <=? st)%Z && (st <? 600)%Z); [discriminate |]. reflexivity.
Qed.

(** X1: a fetch that is answered with a JSON object (and no 4xx or 5xx
    status) returns that object with three keys set: [token_address] is the
    address of the request, whatever the service sent under that key, and
    [symbol] and [full_name] are kept when the service sent them (a null
    included) and are ["N/A"] when it did not; every other key is returned
    as received, and the result is truthy. *)
Theorem X1_token_data_adds_address_and_defaults
    (e : env) (a ch : string) (w : world) (st : Z) (m : gmap string json) :
  bubblemaps e a ch = Ret {| status_code := st; json_body := Some (JObj m) |} →
  ¬ (400 ≤ st < 600)%Z →
  ∃ m' : gmap string json,
    (get_token_data e a ch w).1 = Ret (JObj m') ∧
    truthy (JObj m') = true ∧
    m' !! "token_address" = Some (JStr a) ∧
    m' !! "symbol" = Some (default (JStr "N/A") (m !! "symbol")) ∧
    m' !! "full_name" = Some (default (JStr "N/A") (m !! "full_name")) ∧
    (∀ k, k ≠ "token_address" → k ≠ "symbol" → k ≠ "full_name" →
          m' !! k = m !! k).
Proof.
  intros Hresp Hst. eexists. split; [by apply (get_token_data_object e a ch w st m) |].
  simpl. split.
  { apply negb_true_iff, Nat.eqb_neq, map_size_non_empty_iff.
    intros Hempty. apply (f_equal (λ x : gmap string json, x !! "token_address")) in Hempty.
    rewrite lookup_empty in Hempty.
    by rewrite (lookup_union_Some_l _ _ _ (JStr a)) in Hempty
      by apply lookup_insert_eq. }
  split; [by apply lookup_union_Some_l, lookup_insert_eq |].
  split; [by apply lookup_union_Some_l; rewrite lookup_insert_ne by done;
             apply lookup_insert_eq |].
  split; [by apply lookup_union_Some_l; rewrite !lookup_insert_ne by done;
             apply lookup_insert_eq |].
  intros k H1 H2 H3. apply lookup_union_r.
  by rewrite !lookup_insert_ne, lookup_empty by done.
Qed.

Lemma X1_token_data_witness :
  ∃ m' : gmap string json,
    (get_token_data env_all_up "0xabc" "eth" (start ∅)).1 = Ret (JObj m') ∧
    truthy (JObj m') = true ∧
    m' !! "token_address" = Some (JStr "0xabc") ∧
    m' !! "symbol" = Some (default (JStr "N/A") (token_snapshot !! "symbol")) ∧
    m' !! "full_name" = Some (default (JStr "N/A") (token_snapshot !! "full_name")) ∧
    (∀ k, k ≠ "token_address" → k ≠ "symbol" → k ≠ "full_name" →
          m' !! k = token_snapshot !! k).
Proof.
  apply (X1_token_data_adds_address_and_defaults env_all_up "0xabc" "eth"
           (start ∅) 200 token_snapshot); [reflexivity | lia].
Defined.

(** X2: the fetcher returns something other than [None] exactly when the
    service answered with a JSON object under a status outside 400-599; a
    transport error, a body that does not parse, and a JSON value that is
    not an object (a list, a string, null) all give [None]. *)
Theorem X2_token_data_present_iff_object
    (e : env) (a ch : string) (w : world) :
  (get_token_data e a ch w).1 ≠ Ret JNull ↔
  ∃ st m, bubblemaps e a ch = Ret {| status_code := st; json_body := Some (JObj m) |}
          ∧ ¬ (400 ≤ st < 600)%Z.
Proof.
  split.
  - unfold get_token_data, try_except, requests_get, emit, lift, mbind, M_bind,
      mret, M_ret.
    destruct (bubblemaps e a ch) as [[st body]|x]; simpl; [| done].
    destruct (st =? 401)%Z eqn:H401; [done |].
    destruct (st =? 404)%Z eqn:H404; [done |].
    unfold raise_for_status. simpl.
    destruct ((400 <=? st)%Z && (st <? 600)%Z) eqn:Hrange; [done |].
    destruct body as [[| | | | |m]|]; simpl; try done.
    intros _. exists st, m. split; [done |].
    intros [H1 H2]. apply andb_false_iff in Hrange as [H|H];
      [apply Z.leb_gt in H | apply Z.ltb_ge in H]; lia.
  - intros (st & m & Hresp & Hst).
    by rewrite (get_token_data_object e a ch w st m Hresp Hst).
Qed.

(** ** Market-data fetcher *)

Lemma mapped_chain_not_sol (ch slug : string) :
  chain_map !! ch = Some slug → String.eqb ch "sol" = false.
Proof.
  intros Hslug. destruct (String.eqb_spec ch "sol") as [->|]; [| done].
  vm_compute in Hslug. discriminate.
Qed.

Lemma market_record_shape (data : json) :
  market_record data =
    if market_shape_ok data then
      Ret (JObj (list_to_map
        [("price", usd_or_null (market_dict data) "current_price");
         ("market_cap", usd_or_null (market_dict data) "market_cap");
         ("volume", usd_or_null (market_dict data) "total_volume");
         ("price_change_24h",
          default JNull (market_dict data !! "price_change_percentage_24h"))]))
    else Raise AttributeError.
Proof.
  destruct data as [| | | | |d]; try reflexivity.
  unfold market_record, usd_field, market_shape_ok, market_dict, usd_or_null.
  simpl. destruct (d !! "market_data") as [[| | | | |mk]|]; try reflexivity; simpl.
  destruct (mk !! "current_price") as [[]|]; try reflexivity; simpl;
    destruct (mk !! "market_cap") as [[]|]; try reflexivity; simpl;
    destruct (mk !! "total_volume") as [[]|]; reflexivity.
Qed.

Lemma get_market_data_ok
    (e : env) (a ch slug : string) (w : world) (data : json) :
  chain_map !! ch = Some slug →
  coingecko e slug a = ok_json data →
  (get_market_data e a ch w).1 =
    match market_record data with Ret r => Ret r | Raise _ => Ret JNull end.
Proof.
  intros Hslug Hresp. unfold get_market_data.
  rewrite (mapped_chain_not_sol _ _ Hslug), Hslug.
  unfold try_except, requests_get, emit, lift, mbind, M_bind, mret, M_ret.
  rewrite Hresp. simpl. by destruct (market_record data).
Qed.

(** X3: for a chain without a market-service slug the market fetcher
    returns [None] at once, without a request and without touching the
    world; of the ten supported chains these are exactly [sol] and
    [sonic]. *)
Theorem X3_unmapped_chain_makes_no_market_call
    (e : env) (a ch : string) (w : world) :
  chain_map !! ch = None →
  get_market_data e a ch w = (Ret JNull, w) ∧
  (∀ c, c ∈ SUPPORTED_CHAINS →
        chain_map !! c = None ↔ c = "sol" ∨ c = "sonic") ∧
  (∀ c, is_Some (chain_map !! c) → c ∈ SUPPORTED_CHAINS).
Proof.
  intros Hnone. split; [| split].
  - unfold get_market_data. rewrite Hnone. by destruct (String.eqb ch "sol").
  - intros c Hc. unfold SUPPORTED_CHAINS in Hc.
    repeat (apply elem_of_cons in Hc as [->|Hc]);
      try (by apply elem_of_nil in Hc);
      (split; [intros H; vm_compute in H; try discriminate; auto
              | intros [H|H]; try discriminate; reflexivity]).
  - intros c [slug Hslug]. unfold chain_map in Hslug. simpl in Hslug.
    repeat (apply lookup_insert_Some in Hslug as [[<- _]|[_ Hslug]];
            [apply (bool_decide_unpack _); vm_compute; exact I |]).
    by rewrite lookup_empty in Hslug.
Qed.

Lemma X3_unmapped_chain_witness :
  get_market_data env_all_up "0xabc" "sonic" (start ∅) = (Ret JNull, start ∅).
Proof.
  apply (X3_unmapped_chain_makes_no_market_call env_all_up "0xabc" "sonic" (start ∅)).
  reflexivity.
Defined.

(** X4: the market fetcher returns a record exactly when the chain has a
    slug, the service answered 200 (no other status, 2xx included, will
    do) with a body that parses, and the four figures could be extracted;
    in every other case, a transport error included, it returns [None]. *)
Theorem X4_market_data_present_iff_200_and_extracted
    (e : env) (a ch : string) (w : world) (r : json) :
  (get_market_data e a ch w).1 = Ret r ∧ r ≠ JNull ↔
  ∃ slug data,
    chain_map !! ch = Some slug ∧
    coingecko e slug a = Ret {| status_code := 200; json_body := Some data |} ∧
    market_record data = Ret r.
Proof.
  split.
  - unfold get_market_data.
    destruct (String.eqb ch "sol"); [by intros [[= <-] ?] |].
    destruct (chain_map !! ch) as [slug|] eqn:Hslug; [| by intros [[= <-] ?]].
    unfold try_except, requests_get, emit, lift, mbind, M_bind, mret, M_ret.
    destruct (coingecko e slug a) as [[st body]|x] eqn:Hresp; simpl;
      [| by intros [[= <-] ?]].
    destruct (st =? 200)%Z eqn:Hst; simpl; [| by intros [[= <-] ?]].
    apply Z.eqb_eq in Hst as ->.
    destruct body as [data|]; simpl; [| by intros [[= <-] ?]].
    destruct (market_record data) as [r'|] eqn:Hr; [| by intros [[= <-] ?]].
    intros [[= <-] _]. by exists slug, data.
  - intros (slug & data & Hslug & Hresp & Hr).
    rewrite (get_market_data_ok e a ch slug w data Hslug Hresp), Hr.
    split; [done |]. intros ->. by apply market_record_truthy in Hr.
Qed.

(** X5: when the body, its [market_data] and the three money groups are
    dicts wherever they are present, the fetch succeeds and each figure is
    the value found at its place, or null when any key on the way to it is
    missing: a missing figure never fails the fetch. *)
Theorem X5_missing_market_figures_become_null
    (e : env) (a ch slug : string) (w : world) (data : json) :
  chain_map !! ch = Some slug →
  coingecko e slug a = ok_json data →
  market_shape_ok data = true →
  (get_market_data e a ch w).1 =
    Ret (JObj (list_to_map
      [("price", usd_or_null (market_dict data) "current_price");
       ("market_cap", usd_or_null (market_dict data) "market_cap");
       ("volume", usd_or_null (market_dict data) "total_volume");
       ("price_change_24h",
        default JNull (market_dict data !! "price_change_percentage_24h"))])).
Proof.
  intros Hslug Hresp Hshape.
  rewrite (get_market_data_ok e a ch slug w data Hslug Hresp).
  by rewrite market_record_shape, Hshape.
Qed.

Lemma X5_missing_market_figures_witness :
  (get_market_data (env_market body_partial) "0xabc" "eth" (start ∅)).1 =
    Ret (JObj (list_to_map
      [("price", JNum (3 # 2)); ("market_cap", JNull); ("volume", JNull);
       ("price_change_24h", JNum (-5 # 4))])).
Proof.
  apply (X5_missing_market_figures_become_null (env_market body_partial)
           "0xabc" "eth" "ethereum" (start ∅) body_partial); reflexivity.
Defined.

(** X6: a key that is present but does not hold a dict is not treated as
    missing: when the body, [market_data] or one of the three money groups
    is there as anything else (a null, a number, a list), the extraction
    raises and the whole fetch returns [None], the figures that could have
    been read included. *)
Theorem X6_malformed_market_group_loses_all_figures
    (e : env) (a ch slug : string) (w : world) (data : json) :
  chain_map !! ch = Some slug →
  coingecko e slug a = ok_json data →
  market_shape_ok data = false →
  market_record data = Raise AttributeError ∧
  (get_market_data e a ch w).1 = Ret JNull.
Proof.
  intros Hslug Hresp Hshape.
  rewrite (get_market_data_ok e a ch slug w data Hslug Hresp).
  by rewrite market_record_shape, Hshape.
Qed.

Lemma X6_malformed_market_group_witness :
  market_record body_null_group = Raise AttributeError ∧
  (get_market_data (env_market body_null_group) "0xabc" "eth" (start ∅)).1 = Ret JNull.
Proof.
  apply (X6_malformed_market_group_loses_all_figures (env_market body_null_group)
           "0xabc" "eth" "ethereum" (start ∅) body_null_group); reflexivity.
Defined.

(** * Further properties of the classifier *)

(** X7: the classifier reads at most the first ten records: the verdict,
    or the exception, of a list is that of its first ten records, so
    whatever follows them, records that cannot be read included, changes
    nothing. *)
Theorem X7_only_first_ten_records_matter (nodes : list json) :
  analyze_decentralization nodes = analyze_decentralization (take 10 nodes).
Proof.
  destruct (decide (length nodes ≤ 10)%nat) as [Hshort|Hlong].
  - by rewrite take_ge.
  - unfold analyze_decentralization, top10_percentage.
    rewrite take_take, Nat.min_id. simpl truthy.
    rewrite length_take, Nat.min_l by lia.
    replace (length nodes <? 3)%nat with false by (symmetry; apply Nat.ltb_ge; lia).
    replace (length nodes =? 0)%nat with false by (symmetry; apply Nat.eqb_neq; lia).
    reflexivity.
Qed.



(** * Further properties of the composer *)

Lemma format_spec_number (spec : string) (v : json) :
  format_spec spec v =
    match v with
    | JStr _ => Raise ValueError
    | _ => match as_number v with
           | Some q => Ret (format_float spec q)
           | None => Raise TypeError
           end
    end.
Proof. reflexivity. Qed.



(** X10: a top holder without an address fails the whole composition: for
    a non-empty holder list whose first record is not a dict with an
    [address] key, the holder block raises and so does the composer,
    whatever the other records, the header data and the market data are. *)
Theorem X10_top_holder_without_address_fails_the_composition
    (chain : string) (td : gmap string json) (market_data top : json)
    (rest : list json) :
  td !! "nodes" = Some (JArr (top :: rest)) →
  has_address top = false →
  (∃ x, holder_block (JObj td) = Raise x) ∧
  (∃ x, compose_response chain (JObj td) market_data = Raise x).
Proof.
  intros Hnodes Haddr.
  assert (∃ x, holder_block (JObj td) = Raise x) as [x Hx].
  { unfold holder_block. simpl. rewrite Hnodes.
    rewrite bool_decide_eq_true_2 by eauto. simpl.
    destruct (analyze_decentralization (top :: rest)); simpl; [| eauto].
    destruct top as [| | | | |m]; simpl; eauto.
    simpl in Haddr. apply bool_decide_eq_false_1 in Haddr.
    destruct (m !! "address") eqn:Hm; [| simpl; eauto].
    destruct Haddr. eauto. }
  split; [eauto |]. unfold compose_response. simpl.
  destruct (market_block market_data); simpl; [| eauto].
  rewrite Hx. simpl. eauto.
Qed.

(** * Further properties of the handler *)

Section Keeps.

Variable R : world → world → Prop.
Hypothesis R_refl : ∀ w, R w w.
Hypothesis R_trans : ∀ w1 w2 w3, R w1 w2 → R w2 w3 → R w1 w3.

Lemma keeps_ret {A} (a : A) : keeps R (mret a).
Proof. intros w. apply R_refl. Qed.

Lemma keeps_lift {A} (o : outcome A) : keeps R (lift o).
Proof. intros w. apply R_refl. Qed.

Lemma keeps_bind {A B} (m : M A) (f : A → M B) :
  keeps R m → (∀ a, keeps R (f a)) → keeps R (m ≫= f).
Proof.
  intros Hm Hf w. unfold mbind, M_bind. specialize (Hm w).
  destruct (m w) as [[a|x] w']; simpl in *; [| done].
  eapply R_trans; [exact Hm | apply Hf].
Qed.

Lemma keeps_try_except {A} (m : M A) (h : exn → M A) :
  keeps R m → (∀ x, keeps R (h x)) → keeps R (try_except m h).
Proof.
  intros Hm Hh w. unfold try_except. specialize (Hm w).
  destruct (m w) as [[a|x] w']; simpl in *; [done |].
  eapply R_trans; [exact Hm | apply Hh].
Qed.

Lemma keeps_try_finally {A} (m : M A) (c : M unit) :
  keeps R m → keeps R c → keeps R (try_finally m c).
Proof.
  intros Hm Hc w. unfold try_finally. specialize (Hm w).
  destruct (m w) as [r w']. specialize (Hc w').
  destruct (c w') as [[[]|x] w'']; simpl in *; eapply R_trans; eauto.
Qed.

End Keeps.

Lemma no_fetch_refl (w : world) : no_fetch w w.
Proof. done. Qed.

Lemma no_fetch_trans (w1 w2 w3 : world) :
  no_fetch w1 w2 → no_fetch w2 w3 → no_fetch w1 w3.
Proof. unfold no_fetch. congruence. Qed.

Lemma frame_refl (path : string) (w : world) : frame path w w.
Proof. done. Qed.

Lemma frame_trans (path : string) (w1 w2 w3 : world) :
  frame path w1 w2 → frame path w2 w3 → frame path w1 w3.
Proof. intros H12 H23 p Hp. by rewrite (H23 p Hp), (H12 p Hp). Qed.

Lemma no_fetch_snoc (w : world) (fs : gset string) (n : nat) (ev : event) :
  is_fetch ev = false →
  no_fetch w {| files := fs; trace := trace w ++ [ev]; api_calls := n |}.
Proof.
  intros Hev. unfold no_fetch. simpl. rewrite List.filter_app. simpl.
  rewrite Hev. apply app_nil_r.
Qed.

(** Sending, whether text or photo with its cleanup, is no fetch. *)
Lemma reply_text_no_fetch (e : env) (text : string) :
  keeps no_fetch (reply_text e text).
Proof. intros w. by apply no_fetch_snoc. Qed.

Lemma send_photo_no_fetch (e : env) (path caption : string) :
  keeps no_fetch (send_photo e path caption).
Proof.
  apply keeps_try_finally; try apply no_fetch_trans.
  - apply keeps_bind; try apply no_fetch_trans.
    + intros w. apply no_fetch_refl.
    + intros _ w. by apply no_fetch_snoc.
  - apply keeps_bind; try apply no_fetch_trans.
    + intros w. apply no_fetch_refl.
    + intros [] w; [by apply no_fetch_snoc | apply no_fetch_refl].
Qed.

Lemma respond_no_fetch
    (e : env) (ch : string) (td md : json) (sp : option string) :
  keeps no_fetch (respond e ch td md sp).
Proof.
  unfold respond. destruct (negb (truthy td)); [apply reply_text_no_fetch |].
  apply keeps_bind; try apply no_fetch_trans.
  - apply keeps_lift, no_fetch_refl.
  - intros lines. destruct sp; [apply send_photo_no_fetch | apply reply_text_no_fetch].
Qed.

(** Sending touches no file but the screenshot it deletes. *)
Lemma reply_text_frame (e : env) (path text : string) :
  keeps (frame path) (reply_text e text).
Proof. by intros w p Hp. Qed.

Lemma send_photo_frame (e : env) (path caption : string) :
  keeps (frame path) (send_photo e path caption).
Proof.
  apply keeps_try_finally; try apply frame_trans.
  - apply keeps_bind; try apply frame_trans; intros; by intros w p Hp.
  - apply keeps_bind; try apply frame_trans.
    + intros w. apply frame_refl.
    + intros [] w; [| apply frame_refl].
      intros p Hp. simpl. rewrite elem_of_difference, elem_of_singleton. tauto.
Qed.

Lemma process_request_frame (e : env) (a ch : string) :
  keeps (frame (screenshot_file a)) (process_request e a ch).
Proof.
  destruct (process_request_exact e a ch) as (td & md & _ & _ & Hrun).
  intros w. rewrite Hrun.
  apply (frame_trans _ _ (after_fetches e a ch w)).
  - intros p Hp. unfold after_fetches. simpl.
    destruct (browser e ch a) as [|[]]; try done.
    rewrite elem_of_union, elem_of_singleton. tauto.
  - unfold respond. destruct (negb (truthy td)); [apply reply_text_frame |].
    apply keeps_bind; try apply frame_trans.
    + apply keeps_lift, frame_refl.
    + intros lines. unfold shot_path.
      destruct (browser e ch a); [apply reply_text_frame | apply send_photo_frame].
Qed.


(** X12: the handler touches no file but the screenshot of the request:
    whatever happens, a file with another name is there afterwards exactly
    when it was there before. *)
Theorem X12_handler_touches_only_the_screenshot_file
    (e : env) (message_text : string) (w : world) (p : string) :
  p ≠ screenshot_file (nth 0 (py_split message_text) "") →
  p ∈ files (handle_contract e message_text w).2 ↔ p ∈ files w.
Proof.
  intros Hp. revert p Hp.
  cut (keeps (frame (screenshot_file (nth 0 (py_split message_text) "")))
         (handle_contract e message_text)); [intros Hkeeps; exact (Hkeeps w) |].
  unfold handle_contract.
  destruct (py_split message_text) as [|a [|c [|? ?]]]; try apply reply_text_frame.
  destruct (bool_decide _); [| apply reply_text_frame]. simpl.
  apply keeps_bind; try apply frame_trans; [apply reply_text_frame |].
  intros _. apply keeps_try_except; try apply frame_trans.
  - apply process_request_frame.
  - intros _. apply reply_text_frame.
Qed.

Lemma market_calls_by_slug (a ch : string) :
  market_calls a ch =
    match chain_map !! ch with
    | Some slug =>
        [HttpGet (COINGECKO_API_URL ++ "/coins/" ++ slug ++ "/contract/" ++ a) []]
    | None => []
    end.
Proof.
  unfold market_calls. destruct (String.eqb_spec ch "sol") as [->|]; done.
Qed.

Lemma fetch_events_are_fetches (e : env) (a ch : string) :
  List.filter is_fetch (fetch_events e a ch) = fetch_events e a ch ∧
  List.filter is_reply (fetch_events e a ch) = [].
Proof.
  unfold fetch_events, browser_calls. rewrite market_calls_by_slug.
  destruct (chain_map !! ch); destruct (browser e ch a) as [|[]]; done.
Qed.

Lemma fetches_after_fetches (e : env) (a ch : string) (fs : gset string) :
  List.filter is_fetch (trace (after_fetches e a ch (noticed fs))) =
  fetch_events e a ch.
Proof.
  unfold after_fetches, noticed. cbn [trace]. rewrite List.filter_app.
  by destruct (fetch_events_are_fetches e a ch) as [-> _].
Qed.

Lemma replies_after_fetches
    (e : env) (a ch : string) (fs : gset string) (evs : list event) :
  List.filter is_reply
    ((trace (after_fetches e a ch (noticed fs)) ++ evs)%list) =
  (ReplyText processing_message true :: List.filter is_reply evs)%list.
Proof.
  unfold after_fetches, noticed. cbn [trace]. rewrite !List.filter_app.
  by destruct (fetch_events_are_fetches e a ch) as [_ ->].
Qed.

(** X13: an accepted request always fans out to the same calls, whatever
    they return: one request to the mapping service with the address as
    typed and the chain in lower case, one request to the market service
    when the chain has a slug (none for [sol] and [sonic]), and one page
    load, in this order, plus the saved screenshot when the capture was
    written.  A holder fetch that fails does not spare the other two, and
    nothing after the join fetches again.  When the progress notice itself
    cannot be sent, nothing is fetched. *)
Theorem X13_accepted_request_fetches_once_from_each_service
    (e : env) (message_text a c : string) (fs : gset string) :
  py_split message_text = [a; c] →
  lower c ∈ SUPPORTED_CHAINS →
  List.filter is_fetch (trace (handle_contract e message_text (start fs)).2) =
    if telegram_ok e 0 then
      (HttpGet BUBBLEMAPS_API_URL [("token", a); ("chain", lower c)]
       :: match chain_map !! lower c with
          | Some slug =>
              [HttpGet (COINGECKO_API_URL ++ "/coins/" ++ slug ++ "/contract/" ++ a) []]
          | None => []
          end
       ++ BrowserGet ("https://app.bubblemaps.io/" ++ lower c ++ "/token/" ++ a)
       :: match browser e (lower c) a with
          | Captured true => [SaveScreenshot ("temp_" ++ a ++ ".png")]
          | _ => []
          end)%list
    else [].
Proof.
  intros Hsplit Hchain. destruct (telegram_ok e 0) eqn:Hnotice.
  - destruct (handle_contract_accepted e message_text a c fs Hsplit Hchain Hnotice)
      as (td & md & _ & _ & ->).
    assert (keeps no_fetch
              (try_except (respond e (lower c) td md (shot_path e a (lower c)))
                 (λ _, reply_text e error_message))) as Hkeeps.
    { apply keeps_try_except; try apply no_fetch_trans;
        [apply respond_no_fetch | intros _; apply reply_text_no_fetch]. }
    rewrite (Hkeeps _), fetches_after_fetches.
    unfold fetch_events, browser_calls, screenshot_file.
    by rewrite market_calls_by_slug.
  - unfold handle_contract. rewrite Hsplit, bool_decide_eq_true_2 by done.
    unfold mbind, M_bind, reply_text. simpl. by rewrite Hnotice.
Qed.

(** ** How the composed message is delivered *)

Lemma respond_composed
    (e : env) (ch : string) (td md : json) (sp : option string)
    (lines : list string) (w : world) :
  truthy td = true →
  compose_response ch td md = Ret lines →
  respond e ch td md sp w =
    match sp with
    | Some path => send_photo e path (join nl lines) w
    | None => reply_text e (join nl lines) w
    end.
Proof.
  intros Htd Hlines. unfold respond, lift, mbind, M_bind.
  rewrite Htd, Hlines. simpl. by destruct sp.
Qed.

Lemma send_photo_run (e : env) (path caption : string) (w : world) :
  send_photo e path caption w =
    if bool_decide (path ∈ files w) then
      (if telegram_ok e (api_calls w) then Ret () else Raise TelegramError,
       {| files := files w ∖ {[path]};
          trace := trace w ++ [ReplyPhoto path caption (telegram_ok e (api_calls w));
                               Remove path];
          api_calls := S (api_calls w) |})
    else (Raise FileNotFoundError, w).
Proof.
  unfold send_photo, try_finally, open_rb, reply_photo, path_exists, os_remove,
    mbind, M_bind, mret, M_ret.
  destruct (bool_decide (path ∈ files w)) eqn:Hin; simpl.
  - destruct (telegram_ok e (api_calls w)); simpl; rewrite Hin; simpl;
      by rewrite <- app_assoc.
  - by rewrite Hin.
Qed.

(** An accepted request with holder data and a composed message. *)
Lemma handle_contract_composed
    (e : env) (message_text a c : string) (fs : gset string)
    (td md : json) (lines : list string) :
  py_split message_text = [a; c] →
  lower c ∈ SUPPORTED_CHAINS →
  (∀ w, (get_token_data e a (lower c) w).1 = Ret td) →
  (∀ w, (get_market_data e a (lower c) w).1 = Ret md) →
  truthy td = true →
  compose_response (lower c) td md = Ret lines →
  telegram_ok e 0 = true →
  handle_contract e message_text (start fs) =
    try_except
      (match shot_path e a (lower c) with
       | Some path => send_photo e path (join nl lines)
       | None => reply_text e (join nl lines)
       end)
      (λ _, reply_text e error_message)
      (after_fetches e a (lower c) (noticed fs)).
Proof.
  intros Hsplit Hchain Htd Hmd Htruthy Hlines Hnotice.
  destruct (handle_contract_accepted e message_text a c fs Hsplit Hchain Hnotice)
    as (td' & md' & Htd' & Hmd' & ->).
  specialize (Htd (start ∅)). rewrite Htd' in Htd. injection Htd as ->.
  specialize (Hmd (start ∅)). rewrite Hmd' in Hmd. injection Hmd as ->.
  unfold try_except. rewrite (respond_composed _ _ _ _ _ lines) by done.
  by destruct (shot_path e a (lower c)).
Qed.

(** X14: when the browser fails, the answer is the composed message as
    plain text: one text reply after the progress notice, no photo, and no
    file created or removed. *)
Theorem X14_browser_failure_degrades_to_text
    (e : env) (message_text a c : string) (fs : gset string)
    (td md : json) (lines : list string) :
  py_split message_text = [a; c] →
  lower c ∈ SUPPORTED_CHAINS →
  (∀ w, (get_token_data e a (lower c) w).1 = Ret td) →
  (∀ w, (get_market_data e a (lower c) w).1 = Ret md) →
  truthy td = true →
  compose_response (lower c) td md = Ret lines →
  browser e (lower c) a = DriverRaises →
  telegram_ok e 0 = true →
  telegram_ok e 1 = true →
  let r := handle_contract e message_text (start fs) in
  r.1 = Ret () ∧
  replies r.2 = [ReplyText processing_message true;
                 ReplyText (join nl lines) true] ∧
  files r.2 = fs.
Proof.
  intros Hsplit Hchain Htd Hmd Htruthy Hlines Hshot Hnotice Hsend. cbv zeta.
  rewrite (handle_contract_composed e message_text a c fs td md lines) by done.
  unfold shot_path. rewrite Hshot.
  rewrite (try_except_ret_run _ _ _ _ _
             (reply_text_run e _ (after_fetches e a (lower c) (noticed fs)) Hsend)).
  unfold replies. cbn [fst snd trace files].
  rewrite replies_after_fetches. unfold after_fetches. cbn [files].
  by rewrite Hshot.
Qed.

Lemma written_then_removed (path : string) (fs : gset string) :
  ({[path]} ∪ fs) ∖ {[path]} = fs ∖ {[path]}.
Proof.
  apply set_eq. intros p.
  rewrite !elem_of_difference, elem_of_union, elem_of_singleton. tauto.
Qed.

(** X15: when the screenshot was written, the answer is the photo with the
    composed message as caption, and the file is deleted afterwards whether
    the photo was delivered or the send raised (a file of that name left by
    an earlier request goes with it); a failed send is followed by the
    generic error message, after which the handler returns normally. *)
Theorem X15_photo_is_sent_then_deleted_even_when_the_send_fails
    (e : env) (message_text a c : string) (fs : gset string)
    (td md : json) (lines : list string) :
  py_split message_text = [a; c] →
  lower c ∈ SUPPORTED_CHAINS →
  (∀ w, (get_token_data e a (lower c) w).1 = Ret td) →
  (∀ w, (get_market_data e a (lower c) w).1 = Ret md) →
  truthy td = true →
  compose_response (lower c) td md = Ret lines →
  browser e (lower c) a = Captured true →
  telegram_ok e 0 = true →
  telegram_ok e 2 = true →
  let r := handle_contract e message_text (start fs) in
  r.1 = Ret () ∧
  replies r.2 =
    (if telegram_ok e 1 then
       [ReplyText processing_message true;
        ReplyPhoto ("temp_" ++ a ++ ".png") (join nl lines) true]
     else
       [ReplyText processing_message true;
        ReplyPhoto ("temp_" ++ a ++ ".png") (join nl lines) false;
        ReplyText error_message true]) ∧
  files r.2 = fs ∖ {["temp_" ++ a ++ ".png"]}.
Proof.
  intros Hsplit Hchain Htd Hmd Htruthy Hlines Hshot Hnotice Hlast. cbv zeta.
  rewrite (handle_contract_composed e message_text a c fs td md lines) by done.
  unfold shot_path. rewrite Hshot. unfold try_except. rewrite send_photo_run.
  assert (files (after_fetches e a (lower c) (noticed fs))
          = {[screenshot_file a]} ∪ fs) as Hfiles.
  { unfold after_fetches. cbn [files]. by rewrite Hshot. }
  rewrite Hfiles, bool_decide_eq_true_2 by (by apply elem_of_union_l, elem_of_singleton).
  replace (api_calls (after_fetches e a (lower c) (noticed fs))) with 1%nat by done.
  rewrite written_then_removed. change (screenshot_file a) with ("temp_" ++ a ++ ".png").
  destruct (telegram_ok e 1).
  - unfold replies. cbn [fst snd trace files].
    rewrite replies_after_fetches. done.
  - rewrite reply_text_run by done. unfold replies. cbn [fst snd trace files].
    rewrite <- app_assoc, replies_after_fetches. done.
Qed.

(** X16: the path is returned even when [save_screenshot] reports that it
    wrote nothing.  Then the composed message is not sent at all: opening
    the file raises and the user gets the generic error message, unless a
    file of that name was left by an earlier request, in which case that
    old screenshot is sent as the photo of this request and deleted. *)
Theorem X16_unwritten_screenshot_fails_or_sends_a_stale_file
    (e : env) (message_text a c : string) (fs : gset string)
    (td md : json) (lines : list string) :
  py_split message_text = [a; c] →
  lower c ∈ SUPPORTED_CHAINS →
  (∀ w, (get_token_data e a (lower c) w).1 = Ret td) →
  (∀ w, (get_market_data e a (lower c) w).1 = Ret md) →
  truthy td = true →
  compose_response (lower c) td md = Ret lines →
  browser e (lower c) a = Captured false →
  telegram_ok e 0 = true →
  telegram_ok e 1 = true →
  let r := handle_contract e message_text (start fs) in
  r.1 = Ret () ∧
  replies r.2 =
    [ReplyText processing_message true;
     if bool_decide ("temp_" ++ a ++ ".png" ∈ fs)
     then ReplyPhoto ("temp_" ++ a ++ ".png") (join nl lines) true
     else ReplyText error_message true] ∧
  files r.2 = fs ∖ {["temp_" ++ a ++ ".png"]}.
Proof.
  intros Hsplit Hchain Htd Hmd Htruthy Hlines Hshot Hnotice Hsend. cbv zeta.
  rewrite (handle_contract_composed e message_text a c fs td md lines) by done.
  unfold shot_path. rewrite Hshot. unfold try_except. rewrite send_photo_run.
  assert (files (after_fetches e a (lower c) (noticed fs)) = fs) as Hfiles.
  { unfold after_fetches. cbn [files]. by rewrite Hshot. }
  rewrite Hfiles.
  replace (api_calls (after_fetches e a (lower c) (noticed fs))) with 1%nat by done.
  rewrite Hsend. change (screenshot_file a) with ("temp_" ++ a ++ ".png").
  destruct (bool_decide ("temp_" ++ a ++ ".png" ∈ fs)) eqn:Hstale.
  - unfold replies. cbn [fst snd trace files].
    rewrite replies_after_fetches. done.
  - rewrite reply_text_run by done. unfold replies. cbn [fst snd trace files].
    rewrite replies_after_fetches, Hfiles.
    apply bool_decide_eq_false_1 in Hstale. repeat split.
    apply set_eq. intros p. rewrite elem_of_difference, elem_of_singleton.
    split; [| tauto]. intros Hp. split; [done |]. by intros ->.
Qed.

(** X17: with a chat that accepts messages, every accepted request gets
    exactly one answer after the progress notice and the handler returns
    normally: the no-map message when the holder data is absent, otherwise
    the composed message as text or as the caption of the photo, or the
    generic error message. *)
Theorem X17_every_accepted_request_gets_exactly_one_answer
    (e : env) (message_text a c : string) (fs : gset string) (td md : json) :
  py_split message_text = [a; c] →
  lower c ∈ SUPPORTED_CHAINS →
  (∀ w, (get_token_data e a (lower c) w).1 = Ret td) →
  (∀ w, (get_market_data e a (lower c) w).1 = Ret md) →
  (∀ n, telegram_ok e n = true) →
  let r := handle_contract e message_text (start fs) in
  ∃ answer,
    r.1 = Ret () ∧
    replies r.2 = [ReplyText processing_message true; answer] ∧
    (if truthy td then
       answer = ReplyText error_message true ∨
       ∃ lines, compose_response (lower c) td md = Ret lines ∧
                (answer = ReplyText (join nl lines) true ∨
                 answer = ReplyPhoto ("temp_" ++ a ++ ".png") (join nl lines) true)
     else answer = ReplyText no_map_message true).
Proof.
  intros Hsplit Hchain Htd Hmd Hok. cbv zeta.
  destruct (handle_contract_accepted e message_text a c fs Hsplit Hchain (Hok _))
    as (td' & md' & Htd' & Hmd' & ->).
  specialize (Htd (start ∅)). rewrite Htd' in Htd. injection Htd as ->.
  specialize (Hmd (start ∅)). rewrite Hmd' in Hmd. injection Hmd as ->.
  assert (∀ text, ∃ w',
    reply_text e text (after_fetches e a (lower c) (noticed fs)) = (Ret (), w') ∧
    replies w' = [ReplyText processing_message true; ReplyText text true]) as Htext.
  { intros text. eexists. split; [by apply reply_text_run |].
    unfold replies. cbn [trace]. by rewrite replies_after_fetches. }
  set (W := after_fetches e a (lower c) (noticed fs)) in *.
  unfold try_except. destruct (truthy td) eqn:Htruthy.
  - destruct (compose_response (lower c) td md) as [lines|x] eqn:Hlines.
    + rewrite (respond_composed _ _ _ _ _ lines) by done.
      unfold shot_path. destruct (browser e (lower c) a) as [|written].
      * destruct (Htext (join nl lines)) as (w' & -> & Hw').
        eexists. split; [done |]. split; [exact Hw' |]. right. eauto.
      * rewrite send_photo_run, (Hok _).
        destruct (bool_decide (screenshot_file a ∈ files W)).
        -- eexists. split; [done |]. unfold replies. cbn [fst snd trace].
           unfold W. rewrite replies_after_fetches. split; [done |]. right.
           exists lines. split; [done |]. by right.
        -- destruct (Htext error_message) as (w' & -> & Hw').
           eexists. split; [done |]. split; [exact Hw' |]. by left.
    + rewrite (respond_compose_raises _ _ _ _ _ _ _ Htruthy Hlines).
      destruct (Htext error_message) as (w' & -> & Hw').
      eexists. split; [done |]. split; [exact Hw' |]. by left.
  - unfold respond. rewrite Htruthy. cbn [negb].
    destruct (Htext no_map_message) as (w' & -> & Hw').
    eexists. split; [done |]. split; [exact Hw' | done].
Qed.

(** * The shared browser session *)

Lemma one_session_step (c : chrome) (s : process) (k : call) :
  one_session s → one_session (run_call c s k).
Proof.
  intros Hinv. pose proof Hinv as [Hs Hfresh]. destruct k; simpl.
  - unfold init_driver. destruct (DRIVER s) as [d|] eqn:Hd; [exact Hinv |].
    simpl in Hs. destruct (launch_ok c (attempts s)).
    + destruct (timeout_ok c (attempts s)); (split; simpl;
        [by rewrite Hs | intros d [= <-]; lia]).
    + by split.
  - unfold on_shutdown. destruct (DRIVER s) as [d|] eqn:Hd.
    + destruct (quit_ok c d); [| exact Hinv].
      split; simpl; [| done]. rewrite Hs. simpl. by rewrite Nat.eqb_refl.
    + by split.
Qed.

(** X18: however calls to [init_driver] and [on_shutdown] follow one
    another and whichever of them fail, at most one browser session is
    alive at any time and it is the one cached in [DRIVER]: no session is
    started while another is cached, and none is dropped without being
    quit. *)
Theorem X18_at_most_one_browser_session (c : chrome) (calls : list call) :
  sessions (run_calls c calls) = option_list (DRIVER (run_calls c calls)) ∧
  (length (sessions (run_calls c calls)) ≤ 1)%nat.
Proof.
  assert (one_session (run_calls c calls)) as [Hs _].
  { unfold run_calls. assert (one_session boot) as Hboot by (by split).
    revert Hboot. generalize boot. induction calls as [|k calls IH]; intros s Hs;
      [done |]. simpl. by apply IH, one_session_step. }
  split; [done |]. rewrite Hs. destruct (DRIVER _); simpl; lia.
Qed.

(** X19: once Chrome has started, the session is cached whatever happens
    next: any number of later [init_driver] calls return it, start nothing
    and change nothing.  This includes the call in which
    [set_page_load_timeout] raised: that call fails, but the session is
    already in [DRIVER], so the later calls hand it out without a page-load
    timeout and the timeout is never set again. *)
Theorem X19_started_session_is_cached_even_without_timeout
    (c : chrome) (s : process) (n : nat) :
  DRIVER s = None →
  launch_ok c (attempts s) = true →
  let r := init_driver c s in
  r.1 = (if timeout_ok c (attempts s)
         then Ret (attempts s) else Raise WebDriverException) ∧
  timed r.2 = (if timeout_ok c (attempts s)
               then attempts s :: timed s else timed s) ∧
  init_driver c r.2 = (Ret (attempts s), r.2) ∧
  fold_left (run_call c) (replicate n InitDriver) r.2 = r.2.
Proof.
  intros Hnone Hlaunch. cbv zeta.
  assert (DRIVER (init_driver c s).2 = Some (attempts s)) as Hcached.
  { unfold init_driver. rewrite Hnone, Hlaunch.
    by destruct (timeout_ok c (attempts s)). }
  assert (init_driver c (init_driver c s).2 = (Ret (attempts s), (init_driver c s).2))
    as Hagain.
  { generalize dependent (init_driver c s).2. intros s1 Hs1.
    unfold init_driver. by rewrite Hs1. }
  split; [| split; [| split; [exact Hagain |]]].
  - unfold init_driver. rewrite Hnone, Hlaunch.
    by destruct (timeout_ok c (attempts s)).
  - unfold init_driver. rewrite Hnone, Hlaunch.
    by destruct (timeout_ok c (attempts s)).
  - induction n as [|n IH]; [done |]. simpl. by rewrite Hagain.
Qed.

Lemma X19_started_session_witness :
  let r := init_driver chrome_flaky (init_driver chrome_flaky boot).2 in
  r.1 = Raise WebDriverException ∧
  timed r.2 = [] ∧
  init_driver chrome_flaky r.2 = (Ret 1%nat, r.2) ∧
  fold_left (run_call chrome_flaky) (replicate 3 InitDriver) r.2 = r.2.
Proof.
  apply (X19_started_session_is_cached_even_without_timeout chrome_flaky
           (init_driver chrome_flaky boot).2 3); reflexivity.
Defined.

(** X20: [on_shutdown] quits the cached session before anything else.
    When the quit succeeds, [DRIVER] is reset, the worker pool is shut
    down, and a later [init_driver] starts a new session; when the quit
    raises, the exception leaves [on_shutdown] at once: [DRIVER] keeps the
    session and the worker pool is never shut down. *)
Theorem X20_failed_quit_skips_the_pool_shutdown
    (c : chrome) (s : process) (d : nat) :
  DRIVER s = Some d →
  let r := on_shutdown c s in
  if quit_ok c d then
    r.1 = Ret () ∧ DRIVER r.2 = None ∧ executor_up r.2 = false ∧
    (launch_ok c (attempts s) = true →
     DRIVER (init_driver c r.2).2 = Some (attempts s))
  else
    r.1 = Raise WebDriverException ∧ r.2 = s.
Proof.
  intros Hd. unfold on_shutdown. rewrite Hd. simpl.
  destruct (quit_ok c d); [| done]. repeat split.
  intros Hlaunch. unfold init_driver. simpl. rewrite Hlaunch.
  by destruct (timeout_ok c (attempts s)).
Qed.

Lemma X20_failed_quit_witness :
  let s := (init_driver chrome_flaky (init_driver chrome_flaky boot).2).2 in
  let r := on_shutdown chrome_flaky s in
  r.1 = Ret () ∧ DRIVER r.2 = None ∧ executor_up r.2 = false ∧
  (launch_ok chrome_flaky (attempts s) = true →
   DRIVER (init_driver chrome_flaky r.2).2 = Some (attempts s)).
Proof.
  apply (X20_failed_quit_skips_the_pool_shutdown chrome_flaky
           (init_driver chrome_flaky (init_driver chrome_flaky boot).2).2 1).
  reflexivity.
Defined.

End Composer.

(** * Witnesses for the handler, on the sample formatting *)


Lemma C3_holder_absence_witness :
  let w := (handle_contract sample_repr sample_format (env_map_status 401)
              "0xabc eth" (start ∅)).2 in
  replies w = [ReplyText processing_message true; ReplyText no_map_message true].
Proof.
  apply (C3_holder_absence_single_failure_message sample_repr sample_format
           (env_map_status 401) "0xabc eth" "0xabc" "eth" ∅).
  - reflexivity.
  - apply (bool_decide_unpack _). vm_compute. exact I.
  - intros w. reflexivity.
  - intros n. reflexivity.
Defined.


Lemma C9_null_market_figure_witness :
  let w := (handle_contract sample_repr sample_format env_all_up
              "0xabc eth" (start ∅)).2 in
  truthy market_all_null = true ∧
  replies w = [ReplyText processing_message true; ReplyText error_message true].
Proof.
  destruct (C9_null_market_figure_fails_the_request sample_repr sample_format
              env_all_up "0xabc eth" "0xabc" "eth" ∅ token_record market_all_null)
    as (_ & Hpresent & _ & _ & Hreplies).
  - reflexivity.
  - apply (bool_decide_unpack _). vm_compute. exact I.
  - intros w. vm_compute. reflexivity.
  - intros w. vm_compute. reflexivity.
  - reflexivity.
  - intros n. reflexivity.
  - split; [exact Hpresent | exact Hreplies].
Defined.

(** * Two complete runs *)

(** The market service is down: the photo goes out with a caption that has
    the header and the holder lines, and the screenshot is deleted. *)
Example run_without_market_data :
  let w := (handle_contract sample_repr sample_format env_no_market
              "0xabc ETH" (start ∅)).2 in
  replies w =
    [ReplyText processing_message true;
     ReplyPhoto "temp_0xabc.png"
       (join nl ["📊 *Token (TKN)*";
                 "";
                 "• Network: ETH";
                 "• Address: `0xabc`";
                 "• Updated: 2024-05-01";
                 "";
                 "🏆 *Top Holder:*";
                 "• Address: `0xa`";
                 "• Percentage: 50.00%";
                 "";
                 "🔍 *Decentralization Analysis:*";
                 "• Score: 2/5";
                 "• Description: Low decentralization"])
       true] ∧
  elements (files w) = [].
Proof. split; vm_compute; reflexivity. Qed.

(** The mapping service has not computed the map (401): one failure
    message, and the screenshot stays on disk. *)
Example run_without_holder_data :
  let w := (handle_contract sample_repr sample_format (env_map_status 401)
              "0xabc eth" (start ∅)).2 in
  replies w = [ReplyText processing_message true; ReplyText no_map_message true] ∧
  elements (files w) = ["temp_0xabc.png"].
Proof. split; vm_compute; reflexivity. Qed.

(** * Witnesses for the further properties of the composer and handler *)


Lemma X10_top_holder_witness :
  (∃ x, holder_block sample_repr sample_format (JObj snapshot_no_address) = Raise x) ∧
  (∃ x, compose_response sample_repr sample_format "eth"
          (JObj snapshot_no_address) JNull = Raise x).
Proof.
  apply (X10_top_holder_without_address_fails_the_composition sample_repr
           sample_format "eth" snapshot_no_address JNull
           (JObj (<["percentage" := JNum 50]> ∅)) [holder "0xb" 30]);
    reflexivity.
Defined.


Lemma X12_handler_touches_only_witness :
  "notes.txt" ∈ files (handle_contract sample_repr sample_format env_all_up
                         "0xabc eth" (start {["notes.txt"]})).2
  ↔ "notes.txt" ∈ files (start {["notes.txt"]}).
Proof.
  apply (X12_handler_touches_only_the_screenshot_file sample_repr sample_format
           env_all_up "0xabc eth" (start {["notes.txt"]}) "notes.txt").
  vm_compute. discriminate.
Defined.

Lemma X13_accepted_request_witness :
  List.filter is_fetch
    (trace (handle_contract sample_repr sample_format (env_map_status 404)
              "0xAbC SOL" (start ∅)).2) =
    [HttpGet BUBBLEMAPS_API_URL [("token", "0xAbC"); ("chain", "sol")];
     BrowserGet "https://app.bubblemaps.io/sol/token/0xAbC";
     SaveScreenshot "temp_0xAbC.png"].
Proof.
  apply (X13_accepted_request_fetches_once_from_each_service sample_repr
           sample_format (env_map_status 404) "0xAbC SOL" "0xAbC" "SOL" ∅).
  - reflexivity.
  - apply (bool_decide_unpack _). vm_compute. exact I.
Defined.

Lemma X14_browser_failure_witness :
  let r := handle_contract sample_repr sample_format
             (env_browser DriverRaises (λ _, true)) "0xabc sol" (start ∅) in
  r.1 = Ret () ∧
  replies r.2 = [ReplyText processing_message true;
                 ReplyText (join nl sol_lines) true] ∧
  files r.2 = ∅.
Proof.
  apply (X14_browser_failure_degrades_to_text sample_repr sample_format
           (env_browser DriverRaises (λ _, true)) "0xabc sol" "0xabc" "sol" ∅
           token_record JNull sol_lines).
  - reflexivity.
  - apply (bool_decide_unpack _). vm_compute. exact I.
  - intros w. vm_compute. reflexivity.
  - intros w. reflexivity.
  - reflexivity.
  - vm_compute. reflexivity.
  - reflexivity.
  - reflexivity.
  - reflexivity.
Defined.

Lemma X15_photo_is_sent_witness :
  let r := handle_contract sample_repr sample_format
             (env_browser (Captured true) (λ n, negb (n =? 1)%nat))
             "0xabc sol" (start ∅) in
  r.1 = Ret () ∧
  replies r.2 =
    [ReplyText processing_message true;
     ReplyPhoto "temp_0xabc.png" (join nl sol_lines) false;
     ReplyText error_message true] ∧
  files r.2 = ∅ ∖ {["temp_0xabc.png"]}.
Proof.
  apply (X15_photo_is_sent_then_deleted_even_when_the_send_fails sample_repr
           sample_format (env_browser (Captured true) (λ n, negb (n =? 1)%nat))
           "0xabc sol" "0xabc" "sol" ∅ token_record JNull sol_lines).
  - reflexivity.
  - apply (bool_decide_unpack _). vm_compute. exact I.
  - intros w. vm_compute. reflexivity.
  - intros w. reflexivity.
  - reflexivity.
  - vm_compute. reflexivity.
  - reflexivity.
  - reflexivity.
  - reflexivity.
Defined.

Lemma X16_unwritten_screenshot_witness :
  let r := handle_contract sample_repr sample_format
             (env_browser (Captured false) (λ _, true))
             "0xabc sol" (start {["temp_0xabc.png"]}) in
  r.1 = Ret () ∧
  replies r.2 =
    [ReplyText processing_message true;
     if bool_decide ("temp_0xabc.png" ∈ ({["temp_0xabc.png"]} : gset string))
     then ReplyPhoto "temp_0xabc.png" (join nl sol_lines) true
     else ReplyText error_message true] ∧
  files r.2 = {["temp_0xabc.png"]} ∖ {["temp_0xabc.png"]}.
Proof.
  apply (X16_unwritten_screenshot_fails_or_sends_a_stale_file sample_repr
           sample_format (env_browser (Captured false) (λ _, true))
           "0xabc sol" "0xabc" "sol" {["temp_0xabc.png"]} token_record JNull
           sol_lines).
  - reflexivity.
  - apply (bool_decide_unpack _). vm_compute. exact I.
  - intros w. vm_compute. reflexivity.
  - intros w. reflexivity.
  - reflexivity.
  - vm_compute. reflexivity.
  - reflexivity.
  - reflexivity.
  - reflexivity.
Defined.

Lemma X17_exactly_one_answer_witness :
  let r := handle_contract sample_repr sample_format env_all_up
             "0xabc eth" (start ∅) in
  ∃ answer,
    r.1 = Ret () ∧
    replies r.2 = [ReplyText processing_message true; answer] ∧
    (if truthy token_record then
       answer = ReplyText error_message true ∨
       ∃ lines,
         compose_response sample_repr sample_format "eth" token_record
           market_all_null = Ret lines ∧
         (answer = ReplyText (join nl lines) true ∨
          answer = ReplyPhoto "temp_0xabc.png" (join nl lines) true)
     else answer = ReplyText no_map_message true).
Proof.
  apply (X17_every_accepted_request_gets_exactly_one_answer sample_repr
           sample_format env_all_up "0xabc eth" "0xabc" "eth" ∅ token_record
           market_all_null).
  - reflexivity.
  - apply (bool_decide_unpack _). vm_compute. exact I.
  - intros w. vm_compute. reflexivity.
  - intros w. vm_compute. reflexivity.
  - intros n. reflexivity.
Defined.
